(** * NostrReads: the event encoding / decoding layer and the zap statistics

    A shallow embedding of the functions of [NostrReads.js] that build
    protocol events from domain objects ([createBookEvent],
    [createBookshelfEvent], [createBookReviewEvent]), that rebuild domain
    objects from the tag lists of fetched events ([fetchBooks],
    [fetchUserBookshelves]) and that fold zap receipts into statistics
    ([getZapStats]), followed by the properties of the specification that
    concern them. *)

From Stdlib Require Import ZArith String Ascii DecimalString DecimalPos.
From stdpp Require Import base decidable option list countable gmap strings.

Open Scope string_scope.
Open Scope Z_scope.
Open Scope list_scope.

(** ** JavaScript values

    The values that flow through the tag codec: [undefined], strings and
    integer numbers.  A property that is missing from an object reads as
    [undefined], so an absent field and a field holding [undefined] are the
    same value here.  A string is held as the bytes of its UTF-8 encoding.
    [Num n] is the number whose value is the integer [n].  The numbers of
    the program are doubles: every integer below 2^53 in absolute value is
    one, and the functions below that write a number or add two round to
    the nearest double first ([round_double]). *)

Inductive value : Type :=
  | Undefined
  | Str (s : string)
  | Num (n : Z).

#[global] Instance value_eq_dec : EqDecision value.
Proof. solve_decision. Defined.

#[global] Instance value_countable : Countable value.
Proof.
  refine (inj_countable'
    (fun v => match v with
              | Undefined => inl ()
              | Str s => inr (inl s)
              | Num n => inr (inr n)
              end)
    (fun x => match x with
              | inl _ => Undefined
              | inr (inl s) => Str s
              | inr (inr n) => Num n
              end) _).
  by intros [].
Defined.

(** [ToBoolean]: [undefined], [""] and [0] are falsy. *)
Definition truthy (v : value) : bool :=
  match v with
  | Undefined => false
  | Str s => negb (String.eqb s "")
  | Num n => negb (n =? 0)
  end.

(** [a || b] *)
Definition js_or (a b : value) : value := if truthy a then a else b.

(** [v === 'k'] for a string literal [k]. *)
Definition is_str (k : string) (v : value) : bool :=
  match v with
  | Str s => String.eqb s k
  | _ => false
  end.

(** ** Numbers

    The numbers that the code computes with are doubles whose value is an
    integer, the two infinities and [NaN].  ([Int 0] stands for both zeros:
    a sum that starts from [0] is never the negative zero.) *)

Inductive number : Type :=
  | NaN
  | Int (n : Z)
  | Infinity (negative : bool).

#[global] Instance number_eq_dec : EqDecision number.
Proof. solve_decision. Defined.

(** The double nearest to an integer: 53 significant bits, ties to the even
    significand, and an infinity from 2^1024 on. *)
Definition round_double (z : Z) : number :=
  let a := Z.abs z in
  if a <? 2 ^ 53 then Int z
  else
    let e := Z.log2 a - 52 in
    let q := a / 2 ^ e in
    let r := a mod 2 ^ e in
    let q' :=
      if (2 ^ (e - 1) <? r) || ((r =? 2 ^ (e - 1)) && Z.odd q)
      then q + 1 else q in
    if 2 ^ 1024 <=? q' * 2 ^ e then Infinity (z <? 0)
    else Int (Z.sgn z * (q' * 2 ^ e)).

(** [a + b] on such numbers: the exact sum, rounded. *)
Definition num_add (a b : number) : number :=
  match a, b with
  | Int x, Int y => round_double (x + y)
  | Infinity s, Infinity t => if Bool.eqb s t then Infinity s else NaN
  | Infinity s, Int _ => Infinity s
  | Int _, Infinity t => Infinity t
  | _, _ => NaN
  end.

(** The decimal digits of an integer, with a minus sign when negative. *)
Definition decimal (n : Z) : string := NilZero.string_of_int (Z.to_int n).

Fixpoint zeros (n : nat) : string :=
  match n with
  | O => EmptyString
  | S n' => String "0" (zeros n')
  end.

(** [Number::toString] looks for integers [s] and [n] such that [s] has
    [k] digits, [s * 10^(n - k)] reads back as the number [x], and [k] is as
    small as possible; of two such [s] it takes the one nearer to [x] (the
    even one when they are as near).  For a [k], the only candidates are
    the first [k] digits of [x] and their successor. *)
Definition shortest_at (x d k : Z) : option (Z * Z) :=
  let p := 10 ^ (d - k) in
  let lo := x / p in
  let hi := lo + 1 in
  let next := if hi <? 10 ^ k then (hi, d) else (10 ^ (k - 1), d + 1) in
  match bool_decide (round_double (lo * p) = Int x),
        bool_decide (round_double (hi * p) = Int x) with
  | true, true =>
      if (x - lo * p <? hi * p - x)
         || ((x - lo * p =? hi * p - x) && Z.even lo)
      then Some (lo, d) else Some next
  | true, false => Some (lo, d)
  | false, true => Some next
  | false, false => None
  end.

(** Seventeen digits always tell a double from its neighbours. *)
Fixpoint shortest (fuel : nat) (x d k : Z) : Z * Z :=
  match fuel with
  | O => (x, d)
  | S fuel' =>
      match shortest_at x d k with
      | Some sn => sn
      | None => shortest fuel' x d (k + 1)
      end
  end.

(** The text of [s * 10^(n - k)]: plain digits up to 21 of them, the
    exponent notation beyond. *)
Definition number_text (s n : Z) : string :=
  let ds := decimal s in
  let k := Z.of_nat (String.length ds) in
  if n <=? 21 then String.append ds (zeros (Z.to_nat (n - k)))
  else
    match ds with
    | String c r =>
        String c
          (String.append
             (match r with EmptyString => EmptyString | _ => String "." r end)
             (String.append "e+" (decimal (n - 1))))
    | EmptyString => EmptyString
    end.

(** [Number.prototype.toString()] on the number written [n].  Below 2^53
    the shortest digits that read back as the number are its own. *)
Definition Z_toString (n : Z) : string :=
  match round_double n with
  | Int m =>
      if Z.abs m <? 2 ^ 53 then decimal m
      else
        let x := Z.abs m in
        let d := Z.of_nat (String.length (decimal x)) in
        let '(s, e) := shortest 17 x d 1 in
        String.append (if m <? 0 then "-" else "") (number_text s e)
  | Infinity negative => if negative then "-Infinity" else "Infinity"
  | NaN => "NaN"
  end.

(** [ToString], which is also the coercion of a value used as a property
    key: [obj[undefined]] is [obj["undefined"]]. *)
Definition ToString (v : value) : string :=
  match v with
  | Undefined => "undefined"
  | Str s => s
  | Num n => Z_toString n
  end.

(** A tag is an array of values; [tag[i]] past the end is [undefined] and
    [tag.slice(1)] drops the key. *)
Abbreviation tag := (list value).

Definition at_index (t : tag) (i : nat) : value := default Undefined (t !! i).
Definition slice1 (t : tag) : tag := drop 1 t.

(** [tag[0] === k] *)
Definition keyed (k : string) (t : tag) : bool := is_str k (at_index t 0).

(** ** Exceptions

    A call either returns or throws an error, of which only the [name]
    matters here ([TypeError] is what the runtime raises when a method is
    called on [undefined] or a non-iterable is spread). *)

Inductive result (A : Type) : Type :=
  | Ok (a : A)
  | Throw (name : string).
Arguments Ok {A} a.
Arguments Throw {A} name.

#[global] Instance result_ret : MRet result := fun _ a => Ok a.
#[global] Instance result_bind : MBind result := fun _ _ k r =>
  match r with
  | Ok a => k a
  | Throw e => Throw e
  end.

(** [xs.forEach(f)] where [f] updates an object [s] in place and may throw.
    ([xs.map(f)] with a throwing [f] is stdpp's [mapM]: the first exception
    aborts the map.) *)
Fixpoint forEach {A S} (f : S -> A -> result S) (xs : list A) (s : S) : result S :=
  match xs with
  | [] => Ok s
  | x :: xs' => s' ← f s x; forEach f xs' s'
  end.

(** ** Reading numbers *)

(** The white space that [parseInt] skips and [trim] strips ([WhiteSpace]
    and [LineTerminator]): U+0009 to U+000D and U+0020, one byte each; *)
Definition is_white (c : ascii) : bool :=
  let n := nat_of_ascii c in
  ((9 <=? n) && (n <=? 13))%nat || (n =? 32)%nat.

(** U+00A0, two bytes; *)
Definition is_white2 (c1 c2 : ascii) : bool :=
  ((nat_of_ascii c1 =? 194) && (nat_of_ascii c2 =? 160))%nat.

(** U+1680, U+2000 to U+200A, U+2028, U+2029, U+202F, U+205F, U+3000 and
    U+FEFF, three bytes each. *)
Definition is_white3 (c1 c2 c3 : ascii) : bool :=
  let n1 := nat_of_ascii c1 in
  let n2 := nat_of_ascii c2 in
  let n3 := nat_of_ascii c3 in
  ((n1 =? 225) && (n2 =? 154) && (n3 =? 128)
   || (n1 =? 226) && (n2 =? 128)
      && ((128 <=? n3) && (n3 <=? 138) || (n3 =? 168) || (n3 =? 169) || (n3 =? 175))
   || (n1 =? 226) && (n2 =? 129) && (n3 =? 159)
   || (n1 =? 227) && (n2 =? 128) && (n3 =? 128)
   || (n1 =? 239) && (n2 =? 187) && (n3 =? 191))%nat.

Definition digit_of (c : ascii) : option Z :=
  let n := nat_of_ascii c in
  if ((48 <=? n) && (n <=? 57))%nat then Some (Z.of_nat n - 48) else None.


Fixpoint trim_start (s : string) : string :=
  match s with
  | String c1 r1 =>
      if is_white c1 then trim_start r1
      else
        match r1 with
        | String c2 r2 =>
            if is_white2 c1 c2 then trim_start r2
            else
              match r2 with
              | String c3 r3 => if is_white3 c1 c2 c3 then trim_start r3 else s
              | EmptyString => s
              end
        | EmptyString => s
        end
  | EmptyString => s
  end.

(** The longest prefix of decimal digits, [None] when it is empty. *)
Fixpoint read_digits (s : string) (acc : option Z) : option Z :=
  match s with
  | String c r =>
      match digit_of c with
      | Some d => read_digits r (Some (10 * default 0 acc + d))
      | None => acc
      end
  | EmptyString => acc
  end.

(** [parseInt(v, 10)]: coerce to a string, skip leading white space, read
    an optional sign and the longest run of digits; no digit gives [NaN],
    and the integer read is rounded to the nearest double (the engines do
    so; the standard lets an implementation drop the digits after the
    twentieth significant one). *)
Definition parseInt (v : value) : number :=
  let s := trim_start (ToString v) in
  let '(neg, body) :=
    match s with
    | String "-" r => (true, r)
    | String "+" r => (false, r)
    | _ => (false, s)
    end in
  match read_digits body None with
  | Some n => round_double (if neg then - n else n)
  | None => NaN
  end.


(** ** Events and the signing library

    The event envelope of the protocol.  [id] and [sig] are [undefined]
    until the encoder has called the signing library on the payload. *)

Module Event.
Record t : Type := mk {
  kind : Z;
  created_at : Z;
  tags : list tag;
  content : value;
  pubkey : value;
  id : value;
  sig : value
}.

Definition set_id (v : value) (e : t) : t :=
  mk (kind e) (created_at e) (tags e) (content e) (pubkey e) v (sig e).
Definition set_sig (v : value) (e : t) : t :=
  mk (kind e) (created_at e) (tags e) (content e) (pubkey e) (id e) v.
End Event.

(** The functions imported from [nostr-tools], taken as an interface of
    total functions: the encoders only pass their results along, and an
    exception raised inside the library is outside the model. *)
Class NostrTools : Type := {
  getPublicKey : value -> value;
  getEventHash : Event.t -> value;
  signEvent : Event.t -> value -> value
}.

(** [Math.floor(Date.now() / 1000)], for a clock reading [now] in
    milliseconds. *)
Definition seconds (now : Z) : Z := now / 1000.

(** [[key, ...xs]]: spreading [undefined] raises a [TypeError]. *)
Definition spread (xs : option (list value)) : result (list value) :=
  match xs with
  | Some l => Ok l
  | None => Throw "TypeError"
  end.

(** [v.toString()]: calling a method on [undefined] raises a [TypeError]. *)
Definition toString (v : value) : result string :=
  match v with
  | Undefined => Throw "TypeError"
  | _ => Ok (ToString v)
  end.

(** ** Domain objects handed to the encoders *)

Module BookData.
Record t : Type := mk {
  id : value;
  title : value;
  authors : option (list value);
  isbn : value;
  publishDate : value;
  publisher : value;
  coverUrl : value;
  genres : option (list value);
  summary : value;
  description : value
}.
End BookData.

(** An entry of a shelf, both as given to [createBookshelfEvent] and as
    rebuilt by [fetchUserBookshelves]. *)
Module ShelfBook.
Record t : Type := mk {
  eventId : value;
  status : value;
  progress : value;
  completedDate : value
}.
End ShelfBook.

Module ShelfData.
Record t : Type := mk {
  id : value;
  name : value;
  description : value;
  books : option (list ShelfBook.t);
  notes : value
}.
End ShelfData.

Module ReviewData.
Record t : Type := mk {
  bookEventId : value;
  rating : value;
  readDate : value;
  subject : value;
  content : value
}.
End ReviewData.

(** ** 1. Event creation *)

Section Encoders.
Context `{NostrTools}.

(** The last three statements of every encoder: build the event, then
    attach [id] and [sig]. *)
Definition finish (privateKey : value) (e : Event.t) : Event.t :=
  let e := Event.set_id (getEventHash e) e in
  Event.set_sig (signEvent e privateKey) e.

Definition createBookEvent (now : Z) (privateKey : value)
    (bookData : BookData.t) : result Event.t :=
  let pubkey := getPublicKey privateKey in
  authors ← spread (BookData.authors bookData);
  let tags :=
    [ [Str "d"; BookData.id bookData];
      [Str "title"; BookData.title bookData];
      Str "authors" :: authors;
      [Str "isbn"; js_or (BookData.isbn bookData) (Str "")];
      [Str "published"; js_or (BookData.publishDate bookData) (Str "")];
      [Str "publisher"; js_or (BookData.publisher bookData) (Str "")];
      [Str "cover"; js_or (BookData.coverUrl bookData) (Str "")] ] in
  let tags :=
    match BookData.genres bookData with
    | Some genres =>
        if (0 <? length genres)%nat
        then tags ++ ((fun genre => [Str "genre"; genre]) <$> genres)
        else tags
    | None => tags
    end in
  let tags :=
    if truthy (BookData.summary bookData)
    then tags ++ [[Str "summary"; BookData.summary bookData]]
    else tags in
  let event :=
    Event.mk 30051 (seconds now) tags
      (js_or (BookData.description bookData) (Str "")) pubkey
      Undefined Undefined in
  Ok (finish privateKey event).

(** The tag of one shelf entry. *)
Definition bookTag (book : ShelfBook.t) : tag :=
  let bookTag := [Str "book"; ShelfBook.eventId book; ShelfBook.status book] in
  let bookTag :=
    if truthy (ShelfBook.progress book)
    then bookTag ++ [ShelfBook.progress book] else bookTag in
  let bookTag :=
    if truthy (ShelfBook.completedDate book)
    then bookTag ++ [ShelfBook.completedDate book] else bookTag in
  bookTag.

Definition createBookshelfEvent (now : Z) (privateKey : value)
    (shelfData : ShelfData.t) : Event.t :=
  let pubkey := getPublicKey privateKey in
  let tags :=
    [ [Str "d"; ShelfData.id shelfData];
      [Str "name"; ShelfData.name shelfData] ] in
  let tags :=
    if truthy (ShelfData.description shelfData)
    then tags ++ [[Str "description"; ShelfData.description shelfData]]
    else tags in
  let tags :=
    match ShelfData.books shelfData with
    | Some books =>
        if (0 <? length books)%nat then tags ++ (bookTag <$> books) else tags
    | None => tags
    end in
  let event :=
    Event.mk 30052 (seconds now) tags
      (js_or (ShelfData.notes shelfData) (Str "")) pubkey
      Undefined Undefined in
  finish privateKey event.

Definition createBookReviewEvent (now : Z) (privateKey : value)
    (reviewData : ReviewData.t) : result Event.t :=
  let pubkey := getPublicKey privateKey in
  rating ← toString (ReviewData.rating reviewData);
  let tags :=
    [ [Str "e"; ReviewData.bookEventId reviewData];
      [Str "rating"; Str rating] ] in
  let tags :=
    if truthy (ReviewData.readDate reviewData)
    then tags ++ [[Str "read"; ReviewData.readDate reviewData]]
    else tags in
  let tags :=
    if truthy (ReviewData.subject reviewData)
    then tags ++ [[Str "subject"; ReviewData.subject reviewData]]
    else tags in
  let event :=
    Event.mk 30053 (seconds now) tags
      (js_or (ReviewData.content reviewData) (Str "")) pubkey
      Undefined Undefined in
  Ok (finish privateKey event).
End Encoders.

(** ** 2. Event retrieval

    The relay fetcher is an external service: the functions below are the
    processing that [fetchBooks] and [fetchUserBookshelves] apply to the
    events it returned. *)

Module Book.
Record t : Type := mk {
  id : value;
  pubkey : value;
  created_at : Z;
  description : value;
  tags : gmap string (list tag);
  uniqueId : value;
  title : value;
  authors : option (list value);
  isbn : value;
  publishDate : value;
  publisher : value;
  coverUrl : value;
  genres : option (list value);
  summary : value
}.

Definition set_tags x b := mk (id b) (pubkey b) (created_at b) (description b)
  x (uniqueId b) (title b) (authors b) (isbn b) (publishDate b)
  (publisher b) (coverUrl b) (genres b) (summary b).
Definition set_uniqueId x b := mk (id b) (pubkey b) (created_at b) (description b)
  (tags b) x (title b) (authors b) (isbn b) (publishDate b)
  (publisher b) (coverUrl b) (genres b) (summary b).
Definition set_title x b := mk (id b) (pubkey b) (created_at b) (description b)
  (tags b) (uniqueId b) x (authors b) (isbn b) (publishDate b)
  (publisher b) (coverUrl b) (genres b) (summary b).
Definition set_authors x b := mk (id b) (pubkey b) (created_at b) (description b)
  (tags b) (uniqueId b) (title b) x (isbn b) (publishDate b)
  (publisher b) (coverUrl b) (genres b) (summary b).
Definition set_isbn x b := mk (id b) (pubkey b) (created_at b) (description b)
  (tags b) (uniqueId b) (title b) (authors b) x (publishDate b)
  (publisher b) (coverUrl b) (genres b) (summary b).
Definition set_publishDate x b := mk (id b) (pubkey b) (created_at b) (description b)
  (tags b) (uniqueId b) (title b) (authors b) (isbn b) x
  (publisher b) (coverUrl b) (genres b) (summary b).
Definition set_publisher x b := mk (id b) (pubkey b) (created_at b) (description b)
  (tags b) (uniqueId b) (title b) (authors b) (isbn b) (publishDate b)
  x (coverUrl b) (genres b) (summary b).
Definition set_coverUrl x b := mk (id b) (pubkey b) (created_at b) (description b)
  (tags b) (uniqueId b) (title b) (authors b) (isbn b) (publishDate b)
  (publisher b) x (genres b) (summary b).
Definition set_genres x b := mk (id b) (pubkey b) (created_at b) (description b)
  (tags b) (uniqueId b) (title b) (authors b) (isbn b) (publishDate b)
  (publisher b) (coverUrl b) x (summary b).
Definition set_summary x b := mk (id b) (pubkey b) (created_at b) (description b)
  (tags b) (uniqueId b) (title b) (authors b) (isbn b) (publishDate b)
  (publisher b) (coverUrl b) (genres b) x.
End Book.

(** [book.tags] starts as the object literal [{}], whose prototype is
    [Object.prototype]: reading one of these keys from it finds the
    inherited member, not [undefined]. *)
Definition Object_prototype : list string :=
  [ "constructor"; "__proto__"; "hasOwnProperty"; "isPrototypeOf";
    "propertyIsEnumerable"; "toLocaleString"; "toString"; "valueOf";
    "__defineGetter__"; "__defineSetter__"; "__lookupGetter__";
    "__lookupSetter__" ].

Inductive property : Type :=
  | Own (args : list tag)   (* an array stored by the decoder *)
  | Inherited               (* a member of [Object.prototype] *)
  | Missing.                (* [undefined] *)

(** [obj[key]] on the catch-all object. *)
Definition get_property (obj : gmap string (list tag)) (key : string) : property :=
  match obj !! key with
  | Some args => Own args
  | None => if bool_decide (key ∈ Object_prototype) then Inherited else Missing
  end.

(** The [else] branch of the tag loop of [fetchBooks]:
    [if (!obj[k]) obj[k] = []; obj[k].push(tag.slice(1))].  Arrays and the
    inherited members are truthy; the inherited members have no [push]. *)
Definition store_other (obj : gmap string (list tag)) (t : tag)
    : result (gmap string (list tag)) :=
  let key := ToString (at_index t 0) in
  let obj :=
    match get_property obj key with
    | Missing => <[key := []]> obj
    | _ => obj
    end in
  match get_property obj key with
  | Own args => Ok (<[key := args ++ [slice1 t]]> obj)
  | _ => Throw "TypeError"
  end.

(** The body of [event.tags.forEach] in [fetchBooks]. *)
Definition book_tag (book : Book.t) (t : tag) : result Book.t :=
  if keyed "d" t then Ok (Book.set_uniqueId (at_index t 1) book)
  else if keyed "title" t then Ok (Book.set_title (at_index t 1) book)
  else if keyed "authors" t then Ok (Book.set_authors (Some (slice1 t)) book)
  else if keyed "isbn" t then Ok (Book.set_isbn (at_index t 1) book)
  else if keyed "published" t then Ok (Book.set_publishDate (at_index t 1) book)
  else if keyed "publisher" t then Ok (Book.set_publisher (at_index t 1) book)
  else if keyed "cover" t then Ok (Book.set_coverUrl (at_index t 1) book)
  else if keyed "genre" t then
    let genres := default [] (Book.genres book) in
    Ok (Book.set_genres (Some (genres ++ [at_index t 1])) book)
  else if keyed "summary" t then Ok (Book.set_summary (at_index t 1) book)
  else
    tags ← store_other (Book.tags book) t;
    Ok (Book.set_tags tags book).

(** The callback of [events.map] in [fetchBooks]. *)
Definition book_of_event (event : Event.t) : result Book.t :=
  let book :=
    Book.mk (Event.id event) (Event.pubkey event) (Event.created_at event)
      (Event.content event) ∅
      Undefined Undefined None Undefined Undefined Undefined Undefined None
      Undefined in
  forEach book_tag (Event.tags event) book.

Definition fetchBooks (events : list Event.t) : result (list Book.t) :=
  mapM book_of_event events.

Module Bookshelf.
Record t : Type := mk {
  id : value;
  pubkey : value;
  created_at : Z;
  notes : value;
  books : list ShelfBook.t;
  uniqueId : value;
  name : value;
  description : value
}.

Definition set_books x b := mk (id b) (pubkey b) (created_at b) (notes b)
  x (uniqueId b) (name b) (description b).
Definition set_uniqueId x b := mk (id b) (pubkey b) (created_at b) (notes b)
  (books b) x (name b) (description b).
Definition set_name x b := mk (id b) (pubkey b) (created_at b) (notes b)
  (books b) (uniqueId b) x (description b).
Definition set_description x b := mk (id b) (pubkey b) (created_at b) (notes b)
  (books b) (uniqueId b) (name b) x.
End Bookshelf.

(** The body of [event.tags.forEach] in [fetchUserBookshelves]; a tag with
    any other key falls through every branch. *)
Definition shelf_tag (bookshelf : Bookshelf.t) (t : tag) : Bookshelf.t :=
  if keyed "d" t then Bookshelf.set_uniqueId (at_index t 1) bookshelf
  else if keyed "name" t then Bookshelf.set_name (at_index t 1) bookshelf
  else if keyed "description" t then
    Bookshelf.set_description (at_index t 1) bookshelf
  else if keyed "book" t then
    Bookshelf.set_books
      (Bookshelf.books bookshelf ++
         [ShelfBook.mk (at_index t 1) (at_index t 2) (at_index t 3) (at_index t 4)])
      bookshelf
  else bookshelf.

(** The callback of [events.map] in [fetchUserBookshelves]. *)
Definition shelf_of_event (event : Event.t) : Bookshelf.t :=
  let bookshelf :=
    Bookshelf.mk (Event.id event) (Event.pubkey event) (Event.created_at event)
      (Event.content event) [] Undefined Undefined Undefined in
  foldl shelf_tag bookshelf (Event.tags event).

Definition fetchUserBookshelves (events : list Event.t) : list Bookshelf.t :=
  shelf_of_event <$> events.

(** ** 6. Zap statistics *)

(** [new Set(xs)]: the elements in insertion order, each kept once. *)
Definition Set_add (s : list value) (v : value) : list value :=
  if bool_decide (v ∈ s) then s else s ++ [v].

Definition new_Set (xs : list value) : list value := foldl Set_add [] xs.

Module ZapStats.
Record t : Type := mk {
  totalSats : number;
  zapCount : nat;
  uniqueZappers : nat
}.
End ZapStats.

(** The reducer of [zapReceipts.reduce]. *)
Definition add_amount (sum : number) (receipt : Event.t) : number :=
  match List.find (keyed "amount") (Event.tags receipt) with
  | Some amountTag =>
      if truthy (at_index amountTag 1)
      then num_add sum (parseInt (at_index amountTag 1))
      else sum
  | None => sum
  end.

Definition getZapStats (events : list Event.t) : ZapStats.t :=
  let zapReceipts := filter (fun e => Event.kind e = 9735) events in
  let totalSats := foldl add_amount (Int 0) zapReceipts in
  let uniqueZappers := length (new_Set (Event.pubkey <$> zapReceipts)) in
  ZapStats.mk totalSats (length zapReceipts) uniqueZappers.

(** ** 5. Import of a Goodreads export

    The CSV parser is an external library: [importFromGoodreadsCSV] below
    is the loop over the rows it returned, each row an object from column
    names to strings. *)

(** [row[column]] *)
Definition row_get (row : gmap string string) (column : string) : value :=
  from_option Str Undefined (row !! column).

(** [s.split(',')] *)
Fixpoint split_comma (s : string) : list string :=
  match s with
  | EmptyString => [EmptyString]
  | String c r =>
      if Ascii.eqb c "," then EmptyString :: split_comma r
      else match split_comma r with
           | piece :: pieces => String c piece :: pieces
           | [] => [String c EmptyString]
           end
  end.

(** [v.split(',')]: only strings have the method, calling it on anything
    else raises a [TypeError]. *)
Definition split (v : value) : result (list string) :=
  match v with
  | Str s => Ok (split_comma s)
  | _ => Throw "TypeError"
  end.

(** A text is cut after its last character that is no white space: a
    suffix is dropped when it is white space throughout. *)
Fixpoint trim_end (s : string) : string :=
  match s with
  | EmptyString => EmptyString
  | String c r =>
      match trim_start s with
      | EmptyString => EmptyString
      | _ => String c (trim_end r)
      end
  end.

(** [s.trim()] *)
Definition trim (s : string) : string := trim_end (trim_start s).

Definition nonempty (s : string) : bool := negb (String.eqb s "").

(** The [bookData] object built for one row. *)
Definition goodreads_bookData (row : gmap string string) : result BookData.t :=
  shelves ← split (row_get row "Bookshelves");
  Ok (BookData.mk
        (Str (String.append "goodreads-" (ToString (row_get row "Book Id"))))
        (row_get row "Title")
        (Some [row_get row "Author"])
        (row_get row "ISBN13")
        (row_get row "Year Published")
        Undefined Undefined
        (Some (Str <$> List.filter nonempty (trim <$> shelves)))
        Undefined
        (Str "")).

(** The [reviewData] object built for one row with a review. *)
Definition goodreads_reviewData (row : gmap string string) (bookEvent : Event.t)
    : ReviewData.t :=
  ReviewData.mk (Event.id bookEvent)
    (row_get row "My Rating")
    (row_get row "Date Read")
    (Str (String.append "Review of " (ToString (row_get row "Title"))))
    (row_get row "My Review").

Section CsvImport.
Context `{NostrTools}.

(** The body of the row loop: the events it creates are not published (the
    calls are commented out in the source), so all that is left of a row is
    whether it raised.  [now] and [now'] are the clock readings of the two
    encoder calls. *)
Definition import_row (now now' : Z) (privateKey : value)
    (row : gmap string string) : result unit :=
  bookData ← goodreads_bookData row;
  bookEvent ← createBookEvent now privateKey bookData;
  if truthy (row_get row "My Review")
  then
    reviewEvent ← createBookReviewEvent now' privateKey
                    (goodreads_reviewData row bookEvent);
    Ok ()
  else Ok ().

(** [clock k] is the reading of the clock at the [k]-th encoder call of the
    loop over [data], which starts at call [k0]. *)
Fixpoint import_rows (clock : nat -> Z) (k0 : nat) (privateKey : value)
    (data : list (gmap string string)) : result unit :=
  match data with
  | [] => Ok ()
  | row :: rows =>
      _ ← import_row (clock k0) (clock (S k0)) privateKey row;
      import_rows clock (S (S k0)) privateKey rows
  end.

Definition importFromGoodreadsCSV (clock : nat -> Z)
    (data : list (gmap string string)) (privateKey : value) : result unit :=
  import_rows clock 0 privateKey data.
End CsvImport.

(** ** 7. Book clubs *)

Module Discussion.
Record t : Type := mk {
  date : value;
  topic : value;
  pages : value
}.
End Discussion.

Module ClubData.
Record t : Type := mk {
  id : value;
  name : value;
  bookEventId : value;
  startDate : value;
  endDate : value;
  discussions : option (list Discussion.t);
  description : value
}.
End ClubData.

Section ClubEncoder.
Context `{NostrTools}.

(** The tag of one discussion: [pages] falls back to the empty string, so
    the tag always has four elements. *)
Definition discussionTag (discussion : Discussion.t) : tag :=
  [ Str "discussion"; Discussion.date discussion; Discussion.topic discussion;
    js_or (Discussion.pages discussion) (Str "") ].

Definition createBookClubEvent (now : Z) (privateKey : value)
    (clubData : ClubData.t) : Event.t :=
  let pubkey := getPublicKey privateKey in
  let tags :=
    [ [Str "d"; ClubData.id clubData];
      [Str "name"; ClubData.name clubData];
      [Str "e"; ClubData.bookEventId clubData] ] in
  let tags :=
    if truthy (ClubData.startDate clubData)
    then tags ++ [[Str "start"; ClubData.startDate clubData]] else tags in
  let tags :=
    if truthy (ClubData.endDate clubData)
    then tags ++ [[Str "end"; ClubData.endDate clubData]] else tags in
  let tags :=
    match ClubData.discussions clubData with
    | Some discussions =>
        if (0 <? length discussions)%nat
        then tags ++ (discussionTag <$> discussions) else tags
    | None => tags
    end in
  let event :=
    Event.mk 30055 (seconds now) tags
      (js_or (ClubData.description clubData) (Str "")) pubkey
      Undefined Undefined in
  finish privateKey event.
End ClubEncoder.

(** ** Vocabulary of the statements *)

(** The number that a sequence of decimal digits denotes after the digits
    of [acc]. *)
Fixpoint uint_val (d : Decimal.uint) (acc : Z) : Z :=
  match d with
  | Decimal.Nil => acc
  | Decimal.D0 d => uint_val d (10 * acc + 0)
  | Decimal.D1 d => uint_val d (10 * acc + 1)
  | Decimal.D2 d => uint_val d (10 * acc + 2)
  | Decimal.D3 d => uint_val d (10 * acc + 3)
  | Decimal.D4 d => uint_val d (10 * acc + 4)
  | Decimal.D5 d => uint_val d (10 * acc + 5)
  | Decimal.D6 d => uint_val d (10 * acc + 6)
  | Decimal.D7 d => uint_val d (10 * acc + 7)
  | Decimal.D8 d => uint_val d (10 * acc + 8)
  | Decimal.D9 d => uint_val d (10 * acc + 9)
  end.

(** What the reducer of [getZapStats] adds to the sum for a receipt, when
    it adds anything. *)
Definition amount_added (r : Event.t) : option number :=
  match List.find (keyed "amount") (Event.tags r) with
  | Some amountTag =>
      if truthy (at_index amountTag 1)
      then Some (parseInt (at_index amountTag 1)) else None
  | None => None
  end.

(** The integer that a receipt stands for: 0 when nothing is added for it,
    none when what is added is [NaN] or infinite. *)
Definition amount_int (r : Event.t) : option Z :=
  match amount_added r with
  | Some (Int c) => Some c
  | Some _ => None
  | None => Some 0
  end.

(** The sum of the integers that the receipts stand for. *)
Definition amount_total (events : list Event.t) : Z :=
  foldr Z.add 0
    ((fun r => default 0 (amount_int r))
       <$> filter (fun e => Event.kind e = 9735) events).

(** Every receipt stands for an integer, and the absolute values of these
    integers add up to less than 2^53: no addition of the reducer, in
    whatever order, has to round. *)
Definition amounts_exact (events : list Event.t) : bool :=
  forallb (fun r => bool_decide (is_Some (amount_int r)))
    (filter (fun e => Event.kind e = 9735) events)
  && (foldr Z.add 0
        ((fun r => Z.abs (default 0 (amount_int r)))
           <$> filter (fun e => Event.kind e = 9735) events)
      <? 2 ^ 53).

(** No receipt carries an amount so large that it reads as an infinity. *)
Definition amounts_finite (events : list Event.t) : bool :=
  forallb
    (fun r => match amount_added r with
              | Some (Infinity _) => false
              | _ => true
              end)
    (filter (fun e => Event.kind e = 9735) events).

(** Whether a text starts with a decimal digit. *)
Definition leading_digit (s : string) : bool :=
  match s with
  | String c _ => bool_decide (is_Some (digit_of c))
  | EmptyString => false
  end.


(** The rows that [importFromGoodreadsCSV] gets through: the shelves column
    is there, and so is the rating when there is a review. *)
Definition importable (row : gmap string string) : bool :=
  bool_decide (is_Some (row !! "Bookshelves")) &&
  (negb (truthy (row_get row "My Review")) ||
   bool_decide (is_Some (row !! "My Rating"))).

(** The keys that have a branch of their own in the tag loop of
    [fetchBooks]. *)
Definition recognised (t : tag) : bool :=
  keyed "d" t || keyed "title" t || keyed "authors" t || keyed "isbn" t ||
  keyed "published" t || keyed "publisher" t || keyed "cover" t ||
  keyed "genre" t || keyed "summary" t.

(** The tags the loop can process: a tag of another key is stored in
    [book.tags] unless its key names a member of [Object.prototype]. *)
Definition storable (t : tag) : bool :=
  recognised t || negb (bool_decide (ToString (at_index t 0) ∈ Object_prototype)).

Definition decodable (event : Event.t) : bool :=
  forallb storable (Event.tags event).

(** The tags that land in [book.tags] under [key]. *)
Definition other_keyed (key : string) (t : tag) : bool :=
  negb (recognised t) && String.eqb (ToString (at_index t 0)) key.

(** The fields that hold the second element of a tag. *)
Inductive single_field : Type :=
  | F_uniqueId | F_title | F_isbn | F_publishDate | F_publisher | F_coverUrl
  | F_summary.

Definition field_key (f : single_field) : string :=
  match f with
  | F_uniqueId => "d"
  | F_title => "title"
  | F_isbn => "isbn"
  | F_publishDate => "published"
  | F_publisher => "publisher"
  | F_coverUrl => "cover"
  | F_summary => "summary"
  end.

Definition field_get (f : single_field) (b : Book.t) : value :=
  match f with
  | F_uniqueId => Book.uniqueId b
  | F_title => Book.title b
  | F_isbn => Book.isbn b
  | F_publishDate => Book.publishDate b
  | F_publisher => Book.publisher b
  | F_coverUrl => Book.coverUrl b
  | F_summary => Book.summary b
  end.

(** A signing library whose answers are constants, for the closed examples
    below. *)
Definition fixed_tools : NostrTools := {|
  getPublicKey := fun _ => Str "pk";
  getEventHash := fun _ => Str "id";
  signEvent := fun _ _ => Str "sig"
|}.

(** A zap receipt with the given tags and author. *)
Definition receipt (tags : list tag) (pubkey : value) : Event.t :=
  Event.mk 9735 1700000000 tags (Str "") pubkey (Str "id") (Str "sig").

(** A book with an empty isbn and neither publication date, cover nor
    summary. *)
Definition dune : BookData.t :=
  BookData.mk (Str "b1") (Str "Dune") (Some [Str "Frank Herbert"])
    (Str "") Undefined (Str "Ace") Undefined
    (Some [Str "scifi"; Str "classic"]) Undefined (Str "A desert planet.").

(** * Properties *)

(** ** Numbers and strings *)

Example parseInt_1000 : parseInt (Str "1000") = Int 1000.
Proof. reflexivity. Qed.

Example parseInt_prefix : parseInt (Str " -42sats") = Int (-42).
Proof. reflexivity. Qed.

Example parseInt_letters : parseInt (Str "abc") = NaN.
Proof. reflexivity. Qed.

Example Z_toString_5 : Z_toString 5 = "5" /\ Z_toString 0 = "0" /\ Z_toString (-12) = "-12".
Proof. repeat split. Qed.

(** ** Tags and their keys *)

Lemma keyed_head (k : string) (t : tag) : keyed k t = true -> at_index t 0 = Str k.
Proof.
  unfold keyed, is_str. destruct (at_index t 0) as [|s|n]; try discriminate.
  intros Heq. apply String.eqb_eq in Heq. by subst.
Qed.

Lemma keyed_cons (k s : string) (args : list value) :
  keyed k (Str s :: args) = String.eqb s k.
Proof. reflexivity. Qed.

Lemma at_index_beyond (t : tag) (i : nat) : (length t <= i)%nat -> at_index t i = Undefined.
Proof. intros Hle. unfold at_index. by rewrite lookup_ge_None_2. Qed.

Lemma forEach_app {A S} (f : S -> A -> result S) (xs ys : list A) (s : S) :
  forEach f (xs ++ ys) s = (s' ← forEach f xs s; forEach f ys s').
Proof.
  revert s. induction xs as [|x xs IH]; intros s; simpl; [done|].
  unfold mbind, result_bind. destruct (f s x); [apply IH | done].
Qed.

(** ** The bookshelf decoder *)

Section Bookshelves.

Lemma shelf_tag_books (b : Bookshelf.t) (t : tag) :
  Bookshelf.books (shelf_tag b t) =
  Bookshelf.books b ++
    (if keyed "book" t
     then [ShelfBook.mk (at_index t 1) (at_index t 2) (at_index t 3) (at_index t 4)]
     else []).
Proof.
  unfold shelf_tag.
  destruct (keyed "book" t) eqn:Hbook.
  - pose proof (keyed_head _ _ Hbook) as Hk. unfold keyed. rewrite Hk. reflexivity.
  - repeat case_match; simpl; by rewrite app_nil_r.
Qed.

Lemma shelf_fold_books (ts : list tag) (b : Bookshelf.t) :
  Bookshelf.books (foldl shelf_tag b ts) =
  Bookshelf.books b ++
    ((fun t => ShelfBook.mk (at_index t 1) (at_index t 2) (at_index t 3) (at_index t 4))
       <$> filter (keyed "book") ts).
Proof.
  revert b. induction ts as [|t ts IH]; intros b; simpl.
  - by rewrite app_nil_r.
  - rewrite IH, shelf_tag_books, filter_cons.
    destruct (keyed "book" t) eqn:Hbook.
    + rewrite decide_True by done. by rewrite <- app_assoc.
    + rewrite decide_False by (intros []). by rewrite app_nil_r.
Qed.

(** The entries of a decoded shelf are its [book] tags, in tag order. *)
Lemma shelf_of_event_books (event : Event.t) :
  Bookshelf.books (shelf_of_event event) =
  (fun t => ShelfBook.mk (at_index t 1) (at_index t 2) (at_index t 3) (at_index t 4))
    <$> filter (keyed "book") (Event.tags event).
Proof. unfold shelf_of_event. by rewrite shelf_fold_books. Qed.

Lemma shelf_tag_fields (b : Bookshelf.t) (t : tag) :
  Bookshelf.uniqueId (shelf_tag b t)
    = (if keyed "d" t then at_index t 1 else Bookshelf.uniqueId b) /\
  Bookshelf.name (shelf_tag b t)
    = (if keyed "name" t then at_index t 1 else Bookshelf.name b) /\
  Bookshelf.description (shelf_tag b t)
    = (if keyed "description" t then at_index t 1 else Bookshelf.description b).
Proof.
  unfold shelf_tag.
  destruct (keyed "d" t) eqn:Hd;
    [unfold keyed; by rewrite (keyed_head _ _ Hd)|].
  destruct (keyed "name" t) eqn:Hname;
    [unfold keyed; by rewrite (keyed_head _ _ Hname)|].
  destruct (keyed "description" t) eqn:Hdescription; [done|].
  by destruct (keyed "book" t).
Qed.

(** The single-value fields of a decoded shelf hold the value of the last
    tag with their key. *)
Lemma shelf_fold_fields (ts : list tag) (b : Bookshelf.t) :
  Bookshelf.uniqueId (foldl shelf_tag b ts)
    = match last (filter (keyed "d") ts) with
      | Some t => at_index t 1
      | None => Bookshelf.uniqueId b
      end /\
  Bookshelf.name (foldl shelf_tag b ts)
    = match last (filter (keyed "name") ts) with
      | Some t => at_index t 1
      | None => Bookshelf.name b
      end /\
  Bookshelf.description (foldl shelf_tag b ts)
    = match last (filter (keyed "description") ts) with
      | Some t => at_index t 1
      | None => Bookshelf.description b
      end.
Proof.
  revert b. induction ts as [|t ts IH]; intros b; [by split_and!|].
  cbn [foldl]. destruct (IH (shelf_tag b t)) as (-> & -> & ->).
  destruct (shelf_tag_fields b t) as (-> & -> & ->).
  rewrite !filter_cons. clear IH.
  split_and!.
  - destruct (keyed "d" t); [|by rewrite decide_False by (intros [])].
    rewrite decide_True, last_cons by done. by destruct (last _).
  - destruct (keyed "name" t); [|by rewrite decide_False by (intros [])].
    rewrite decide_True, last_cons by done. by destruct (last _).
  - destruct (keyed "description" t); [|by rewrite decide_False by (intros [])].
    rewrite decide_True, last_cons by done. by destruct (last _).
Qed.

(** [fetchUserBookshelves] decodes every event of the batch on its own. *)
Lemma fetchUserBookshelves_lookup (events : list Event.t) (i : nat) :
  fetchUserBookshelves events !! i = shelf_of_event <$> events !! i.
Proof. apply list_lookup_fmap. Qed.

Lemma bookTag_keyed (book : ShelfBook.t) : keyed "book" (bookTag book) = true.
Proof. unfold bookTag. by repeat case_match. Qed.

Lemma filter_bookTags (books : list ShelfBook.t) :
  filter (keyed "book") (bookTag <$> books) = bookTag <$> books.
Proof.
  induction books as [|b bs IH]; [done|].
  rewrite fmap_cons, filter_cons, decide_True, IH; [done|].
  by rewrite bookTag_keyed.
Qed.

Context `{NostrTools}.

(** The [book] tags of an encoded shelf are the tags of its entries. *)
Lemma createBookshelfEvent_book_tags now privateKey shelfData :
  filter (keyed "book")
    (Event.tags (createBookshelfEvent now privateKey shelfData)) =
  bookTag <$> default [] (ShelfData.books shelfData).
Proof.
  unfold createBookshelfEvent, finish.
  cbn [Event.tags Event.set_sig Event.set_id].
  set (head := if truthy (ShelfData.description shelfData) then _ else _).
  assert (filter (keyed "book") head = []) as Hhead
    by (subst head; by case_match).
  destruct (ShelfData.books shelfData) as [[|b bs]|]; try exact Hhead.
  change (0 <? length (b :: bs))%nat with true. cbv iota.
  by rewrite filter_app, filter_bookTags, Hhead.
Qed.

End Bookshelves.

(** C7. A [book] tag of a bookshelf event always yields a shelf entry, at
    the position of the tag among the [book] tags, whose fields are the
    tag's elements 1 to 4; every position the tag is too short to hold
    decodes to [undefined].  In particular a tag of three elements
    [[book, eventId, status]] yields an entry without progress and without
    completedDate.  The decoder is a total function: no step of it can
    throw. *)
Theorem short_book_tag_decodes (event : Event.t) (pre post : list tag) (t : tag) :
  Event.tags event = pre ++ t :: post ->
  keyed "book" t = true ->
  exists entry,
    Bookshelf.books (shelf_of_event event) !! length (filter (keyed "book") pre)
      = Some entry /\
    ShelfBook.eventId entry = at_index t 1 /\
    ShelfBook.status entry = at_index t 2 /\
    ((length t <= 4)%nat -> ShelfBook.completedDate entry = Undefined) /\
    ((length t <= 3)%nat ->
       ShelfBook.progress entry = Undefined /\
       ShelfBook.completedDate entry = Undefined) /\
    ((length t <= 2)%nat -> ShelfBook.status entry = Undefined) /\
    ((length t <= 1)%nat -> ShelfBook.eventId entry = Undefined).
Proof.
  intros Htags Hbook.
  exists (ShelfBook.mk (at_index t 1) (at_index t 2) (at_index t 3) (at_index t 4)).
  split.
  - rewrite shelf_of_event_books, Htags, filter_app, filter_cons, decide_True
      by (by rewrite Hbook).
    rewrite fmap_app, fmap_cons, lookup_app_r by (by rewrite length_fmap).
    by rewrite length_fmap, Nat.sub_diag.
  - simpl. repeat split; intros; apply at_index_beyond; lia.
Qed.

Lemma short_book_tag_decodes_witness :
  exists entry,
    Bookshelf.books
      (shelf_of_event
         (Event.mk 30052 0
            [[Str "d"; Str "shelf"]; [Str "book"; Str "e1"; Str "reading"; Str "40%"];
             [Str "book"; Str "e2"; Str "read"]]
            (Str "") (Str "pk") (Str "id") (Str "sig"))) !! 1%nat = Some entry /\
    ShelfBook.eventId entry = Str "e2" /\
    ShelfBook.status entry = Str "read" /\
    ShelfBook.progress entry = Undefined /\
    ShelfBook.completedDate entry = Undefined.
Proof.
  destruct (short_book_tag_decodes
    (Event.mk 30052 0
       [[Str "d"; Str "shelf"]; [Str "book"; Str "e1"; Str "reading"; Str "40%"];
        [Str "book"; Str "e2"; Str "read"]]
       (Str "") (Str "pk") (Str "id") (Str "sig"))
    [[Str "d"; Str "shelf"]; [Str "book"; Str "e1"; Str "reading"; Str "40%"]]
    [] [Str "book"; Str "e2"; Str "read"] eq_refl eq_refl)
    as (entry & Hlookup & Hid & Hstatus & _ & Hshort & _).
  exists entry. destruct (Hshort ltac:(simpl; lia)) as [Hp Hc].
  repeat split; assumption.
Defined.

(** C10. When an entry has no (or a falsy) progress and a completedDate,
    [createBookshelfEvent] pushes the date right after the status, so the
    decoder reads it back at the progress position: the decoded entry has
    the original completedDate as its progress and no completedDate. *)
Theorem completedDate_decoded_as_progress `{NostrTools}
    (now : Z) (privateKey : value) (shelfData : ShelfData.t)
    (books : list ShelfBook.t) (i : nat) (book : ShelfBook.t) :
  ShelfData.books shelfData = Some books ->
  books !! i = Some book ->
  truthy (ShelfBook.progress book) = false ->
  truthy (ShelfBook.completedDate book) = true ->
  Bookshelf.books (shelf_of_event (createBookshelfEvent now privateKey shelfData)) !! i
  = Some (ShelfBook.mk (ShelfBook.eventId book) (ShelfBook.status book)
            (ShelfBook.completedDate book) Undefined).
Proof.
  intros Hbooks Hi Hprogress Hdate.
  rewrite shelf_of_event_books, createBookshelfEvent_book_tags, Hbooks; simpl.
  rewrite !list_lookup_fmap, Hi; simpl.
  unfold bookTag. rewrite Hprogress, Hdate. reflexivity.
Qed.

Lemma completedDate_decoded_as_progress_witness :
  Bookshelf.books
    (shelf_of_event
       (@createBookshelfEvent fixed_tools 1700000000000 (Str "sk")
          (ShelfData.mk (Str "shelf") (Str "Read in 2023") Undefined
             (Some [ShelfBook.mk (Str "e1") (Str "reading") (Str "40%") Undefined;
                    ShelfBook.mk (Str "e2") (Str "read") Undefined (Str "2023-05-01")])
             Undefined))) !! 1%nat
  = Some (ShelfBook.mk (Str "e2") (Str "read") (Str "2023-05-01") Undefined).
Proof.
  exact (@completedDate_decoded_as_progress fixed_tools 1700000000000 (Str "sk")
    (ShelfData.mk (Str "shelf") (Str "Read in 2023") Undefined
       (Some [ShelfBook.mk (Str "e1") (Str "reading") (Str "40%") Undefined;
              ShelfBook.mk (Str "e2") (Str "read") Undefined (Str "2023-05-01")])
       Undefined)
    _ 1%nat _ eq_refl eq_refl eq_refl eq_refl).
Defined.

(** ** The zap statistics *)

Section Zaps.

Lemma find_keyed_head (k : string) (ts : list tag) :
  List.find (keyed k) ts = head (filter (keyed k) ts).
Proof.
  induction ts as [|t ts IH]; [done|].
  simpl. rewrite filter_cons. destruct (keyed k t).
  - by rewrite decide_True.
  - by rewrite decide_False by (intros []).
Qed.

(** A receipt without an [amount] tag leaves the sum as it is. *)
Lemma add_amount_no_tag (sum : number) (r : Event.t) :
  filter (keyed "amount") (Event.tags r) = [] -> add_amount sum r = sum.
Proof. intros Hnone. unfold add_amount. by rewrite find_keyed_head, Hnone. Qed.

(** Once the sum is [NaN] it stays [NaN]. *)
Lemma add_amount_NaN (r : Event.t) : add_amount NaN r = NaN.
Proof. unfold add_amount. by repeat case_match. Qed.

Lemma fold_add_amount_NaN (rs : list Event.t) : foldl add_amount NaN rs = NaN.
Proof. induction rs as [|r rs IH]; [done|]. cbn [foldl]. by rewrite add_amount_NaN. Qed.

(** A single receipt whose first [amount] tag holds a truthy value that
    [parseInt] cannot read turns the whole total into [NaN]. *)
Lemma totalSats_NaN (events : list Event.t) (r : Event.t) (amountTag : tag) :
  r ∈ events ->
  Event.kind r = 9735 ->
  head (filter (keyed "amount") (Event.tags r)) = Some amountTag ->
  truthy (at_index amountTag 1) = true ->
  parseInt (at_index amountTag 1) = NaN ->
  ZapStats.totalSats (getZapStats events) = NaN.
Proof.
  intros Hin Hkind Htag Htruthy Hparse.
  assert (r ∈ filter (fun e => Event.kind e = 9735) events) as Hreceipt
    by (by apply list_elem_of_filter).
  apply list_elem_of_split in Hreceipt as (pre & post & Hsplit).
  unfold getZapStats. cbn [ZapStats.totalSats]. rewrite Hsplit, foldl_app.
  cbn [foldl].
  assert (forall sum, add_amount sum r = NaN) as Hnan.
  { intros sum. unfold add_amount.
    rewrite find_keyed_head, Htag, Htruthy, Hparse. by destruct sum. }
  by rewrite Hnan, fold_add_amount_NaN.
Qed.

(** Every receipt is counted, whatever its tags. *)
Lemma zapCount_counts_receipts (events : list Event.t) :
  ZapStats.zapCount (getZapStats events)
  = length (filter (fun e => Event.kind e = 9735) events).
Proof. reflexivity. Qed.

Example getZapStats_three_receipts :
  getZapStats
    [ receipt [[Str "amount"; Str "1000"]] (Str "A");
      receipt [] (Str "A");
      receipt [[Str "amount"; Str "500"]] (Str "B") ]
  = ZapStats.mk (Int 1500) 3 2.
Proof. reflexivity. Qed.

Lemma Set_add_spec (s : list value) (v x : value) :
  x ∈ Set_add s v <-> x ∈ s \/ x = v.
Proof.
  unfold Set_add. case_bool_decide as Hin.
  - split; [by left|]. intros [?| ->]; done.
  - rewrite elem_of_app, list_elem_of_singleton. tauto.
Qed.

Lemma Set_add_NoDup (s : list value) (v : value) : NoDup s -> NoDup (Set_add s v).
Proof.
  intros Hs. unfold Set_add. case_bool_decide as Hin; [done|].
  apply NoDup_app. split_and!; [done| |apply NoDup_singleton].
  intros x Hx ->%list_elem_of_singleton. done.
Qed.

Lemma fold_Set_add (xs s : list value) :
  NoDup s ->
  NoDup (foldl Set_add s xs) /\
  forall x, x ∈ foldl Set_add s xs <-> x ∈ s \/ x ∈ xs.
Proof.
  revert s. induction xs as [|v xs IH]; intros s Hs; simpl.
  - split; [done|]. intros x. rewrite elem_of_nil. tauto.
  - destruct (IH (Set_add s v) (Set_add_NoDup s v Hs)) as [Hnd Hin].
    split; [done|]. intros x.
    rewrite Hin, Set_add_spec, elem_of_cons. tauto.
Qed.

(** The size of [new Set(xs)] is the number of distinct elements of
    [xs]. *)
Lemma new_Set_size (xs : list value) :
  length (new_Set xs) = size (list_to_set xs : gset value).
Proof.
  destruct (fold_Set_add xs [] (NoDup_nil_2)) as [Hnd Hin].
  fold (new_Set xs) in Hnd, Hin.
  rewrite <- (size_list_to_set (C := gset value) (new_Set xs)) by done.
  f_equal. apply set_eq. intros x.
  rewrite !elem_of_list_to_set, Hin, elem_of_nil. tauto.
Qed.

End Zaps.

(** C3. A receipt whose [amount] is not numeric does not contribute 0: the
    reducer of [getZapStats] skips a missing tag and a falsy value, but adds
    whatever [parseInt] returns otherwise, and [parseInt] of a string
    without a leading digit is [NaN], which every later addition keeps.  On
    a stream holding one such receipt among two good ones the total is
    [NaN] (not 1500), while the receipt is still counted. *)
Theorem non_numeric_amount_makes_total_NaN :
  getZapStats
    [ receipt [[Str "amount"; Str "1000"]] (Str "A");
      receipt [[Str "amount"; Str "abc"]] (Str "A");
      receipt [[Str "amount"; Str "500"]] (Str "B") ]
  = ZapStats.mk NaN 3 2.
Proof. reflexivity. Qed.

(** C9. [uniqueZappers] is the cardinality of the set of the authors of the
    kind-9735 events of the input: an author with several receipts is one
    element of that set, and the number is the same for every permutation
    of the input. *)
Theorem uniqueZappers_is_cardinality (events : list Event.t) :
  ZapStats.uniqueZappers (getZapStats events)
  = size (list_to_set
            (Event.pubkey <$> filter (fun e => Event.kind e = 9735) events)
          : gset value)
  /\ (forall events',
        events ≡ₚ events' ->
        ZapStats.uniqueZappers (getZapStats events')
        = ZapStats.uniqueZappers (getZapStats events))
  /\ (forall e,
        Event.kind e = 9735 ->
        Event.pubkey e ∈
          (Event.pubkey <$> filter (fun e => Event.kind e = 9735) events) ->
        ZapStats.uniqueZappers (getZapStats (e :: events))
        = ZapStats.uniqueZappers (getZapStats events)).
Proof.
  assert (forall evs, ZapStats.uniqueZappers (getZapStats evs)
    = size (list_to_set
              (Event.pubkey <$> filter (fun e => Event.kind e = 9735) evs)
            : gset value)) as Hsize
    by (intros evs; apply new_Set_size).
  split_and!.
  - apply Hsize.
  - intros events' Hperm. rewrite !Hsize. f_equal.
    apply list_to_set_perm_L. by rewrite Hperm.
  - intros e Hkind Hin. rewrite !Hsize, filter_cons, decide_True by done.
    rewrite fmap_cons, list_to_set_cons. f_equal.
    apply subseteq_union_1_L, singleton_subseteq_l, elem_of_list_to_set, Hin.
Qed.

Lemma uniqueZappers_is_cardinality_witness :
  ZapStats.uniqueZappers
    (getZapStats
       [ receipt [] (Str "B"); receipt [] (Str "A"); receipt [] (Str "A") ])
  = ZapStats.uniqueZappers
      (getZapStats
         [ receipt [] (Str "A"); receipt [] (Str "B"); receipt [] (Str "A") ]).
Proof.
  apply (proj1 (proj2 (uniqueZappers_is_cardinality
    [ receipt [] (Str "A"); receipt [] (Str "B"); receipt [] (Str "A") ]))).
  apply perm_swap.
Defined.

(** ** The book decoder *)

Section BookDecoder.

Lemma store_other_Ok obj t obj' :
  store_other obj t = Ok obj' ->
  let key := ToString (at_index t 0) in
  obj' = <[key := default [] (obj !! key) ++ [slice1 t]]> obj.
Proof.
  intros Hstore key. unfold store_other, get_property in Hstore.
  fold key in Hstore.
  destruct (obj !! key) as [args|] eqn:Hlookup.
  - rewrite Hlookup in Hstore. by simplify_eq.
  - case_bool_decide.
    + by rewrite Hlookup in Hstore.
    + rewrite lookup_insert_eq in Hstore. simplify_eq.
      by rewrite insert_insert_eq.
Qed.

Lemma store_other_returns obj t :
  ToString (at_index t 0) ∉ Object_prototype ->
  exists obj', store_other obj t = Ok obj'.
Proof.
  intros Hkey. unfold store_other, get_property.
  destruct (obj !! ToString (at_index t 0)) as [args|] eqn:Hlookup.
  - rewrite Hlookup. eauto.
  - rewrite bool_decide_false, lookup_insert_eq by done. eauto.
Qed.

(** Splits a step of the loop into its ten branches, each with the
    outcome of the key tests that lead to it. *)
Ltac branches H :=
  unfold book_tag in H;
  repeat lazymatch type of H with
         | (if keyed ?k ?t then _ else _) = _ =>
             let E := fresh "Hkey" in destruct (keyed k t) eqn:E
         end;
  try (lazymatch type of H with
       | (_ ≫= _) = _ =>
           let E := fresh "Hstore" in
           unfold mbind, result_bind in H;
           destruct (store_other _ _) eqn:E; [|discriminate H]
       end);
  injection H as <-.

(** Settles the key tests of the goal from the ones in the context. *)
Ltac settle :=
  unfold recognised, other_keyed; cbn [field_key field_get];
  repeat match goal with
         | E : keyed _ _ = false |- _ => rewrite ?E; clear E
         end;
  try match goal with
      | E : keyed _ _ = true |- _ =>
          unfold keyed; rewrite (keyed_head _ _ E); clear E
      end;
  simpl.

Lemma book_tag_single f b t b' :
  book_tag b t = Ok b' ->
  field_get f b' = if keyed (field_key f) t then at_index t 1 else field_get f b.
Proof. intros Hstep. branches Hstep; destruct f; settle; reflexivity. Qed.

Lemma book_tag_authors b t b' :
  book_tag b t = Ok b' ->
  Book.authors b' = if keyed "authors" t then Some (slice1 t) else Book.authors b.
Proof. intros Hstep. branches Hstep; settle; reflexivity. Qed.

Lemma book_tag_genres b t b' :
  book_tag b t = Ok b' ->
  Book.genres b' =
    if keyed "genre" t
    then Some (default [] (Book.genres b) ++ [at_index t 1])
    else Book.genres b.
Proof. intros Hstep. branches Hstep; settle; reflexivity. Qed.

Lemma book_tag_tags b t b' :
  book_tag b t = Ok b' ->
  Book.tags b' =
    if recognised t then Book.tags b
    else let key := ToString (at_index t 0) in
         <[key := default [] (Book.tags b !! key) ++ [slice1 t]]> (Book.tags b).
Proof.
  intros Hstep. branches Hstep; settle; try reflexivity.
  by apply store_other_Ok.
Qed.

Lemma book_tag_frame b t b' :
  book_tag b t = Ok b' ->
  Book.id b' = Book.id b /\ Book.pubkey b' = Book.pubkey b /\
  Book.created_at b' = Book.created_at b /\
  Book.description b' = Book.description b.
Proof. intros Hstep. by branches Hstep. Qed.

Lemma book_tag_returns b t : storable t = true -> exists b', book_tag b t = Ok b'.
Proof.
  unfold storable, recognised, book_tag. intros Hst.
  repeat (case_match; [eauto|]). simpl in Hst.
  apply negb_true_iff, bool_decide_eq_false in Hst.
  destruct (store_other_returns (Book.tags b) t Hst) as [obj' ->]. simpl. eauto.
Qed.

Lemma forEach_book_tag_returns ts b :
  forallb storable ts = true -> exists b', forEach book_tag ts b = Ok b'.
Proof.
  revert b. induction ts as [|t ts IH]; intros b Hall; simpl; [eauto|].
  simpl in Hall. apply andb_true_iff in Hall as [Ht Hts].
  destruct (book_tag_returns b t Ht) as [b1 ->]. simpl. by apply IH.
Qed.

(** The decoder returns a book for every decodable event. *)
Lemma book_of_event_returns event :
  decodable event = true -> exists book, book_of_event event = Ok book.
Proof. intros Hd. by apply forEach_book_tag_returns. Qed.

(** An unrecognised tag whose key names a member of [Object.prototype]
    makes the decoder throw. *)
Example book_of_event_constructor_tag :
  book_of_event
    (Event.mk 30051 0 [[Str "title"; Str "Dune"]; [Str "constructor"; Str "x"]]
       (Str "") (Str "pk") (Str "id") (Str "sig"))
  = Throw "TypeError".
Proof. reflexivity. Qed.

(** Inversion of a run of the loop over a non-empty tag list. *)
Lemma forEach_cons_Ok {A S} (f : S -> A -> result S) x xs s s' :
  forEach f (x :: xs) s = Ok s' ->
  exists s1, f s x = Ok s1 /\ forEach f xs s1 = Ok s'.
Proof. simpl. destruct (f s x) as [s1|]; [eauto|discriminate]. Qed.

Lemma forEach_single f ts b b' :
  forEach book_tag ts b = Ok b' ->
  field_get f b' =
    match last (filter (keyed (field_key f)) ts) with
    | Some t => at_index t 1
    | None => field_get f b
    end.
Proof.
  revert b. induction ts as [|t ts IH]; intros b Hrun.
  - by injection Hrun as <-.
  - apply forEach_cons_Ok in Hrun as (b1 & Hstep & Hrun).
    rewrite (IH _ Hrun), (book_tag_single f _ _ _ Hstep), filter_cons.
    destruct (keyed (field_key f) t).
    + rewrite decide_True, last_cons by done. by case_match.
    + by rewrite decide_False by (intros []).
Qed.

Lemma forEach_authors ts b b' :
  forEach book_tag ts b = Ok b' ->
  Book.authors b' =
    match last (filter (keyed "authors") ts) with
    | Some t => Some (slice1 t)
    | None => Book.authors b
    end.
Proof.
  revert b. induction ts as [|t ts IH]; intros b Hrun.
  - by injection Hrun as <-.
  - apply forEach_cons_Ok in Hrun as (b1 & Hstep & Hrun).
    rewrite (IH _ Hrun), (book_tag_authors _ _ _ Hstep), filter_cons.
    destruct (keyed "authors" t).
    + rewrite decide_True, last_cons by done. by case_match.
    + by rewrite decide_False by (intros []).
Qed.

Lemma forEach_genres ts b b' :
  forEach book_tag ts b = Ok b' ->
  Book.genres b' =
    match filter (keyed "genre") ts with
    | [] => Book.genres b
    | gs => Some (default [] (Book.genres b) ++ ((fun t => at_index t 1) <$> gs))
    end.
Proof.
  revert b. induction ts as [|t ts IH]; intros b Hrun.
  - by injection Hrun as <-.
  - apply forEach_cons_Ok in Hrun as (b1 & Hstep & Hrun).
    rewrite (IH _ Hrun), (book_tag_genres _ _ _ Hstep), filter_cons.
    destruct (keyed "genre" t).
    + rewrite decide_True by done.
      destruct (filter (keyed "genre") ts); simpl; [done|].
      by rewrite <- app_assoc.
    + by rewrite decide_False by (intros []).
Qed.

Lemma forEach_frame ts b b' :
  forEach book_tag ts b = Ok b' ->
  Book.id b' = Book.id b /\ Book.pubkey b' = Book.pubkey b /\
  Book.created_at b' = Book.created_at b /\
  Book.description b' = Book.description b.
Proof.
  revert b. induction ts as [|t ts IH]; intros b Hrun.
  - by injection Hrun as <-.
  - apply forEach_cons_Ok in Hrun as (b1 & Hstep & Hrun).
    destruct (IH _ Hrun) as (-> & -> & -> & ->).
    exact (book_tag_frame _ _ _ Hstep).
Qed.

Lemma store_other_throws obj t :
  ToString (at_index t 0) ∈ Object_prototype ->
  obj !! ToString (at_index t 0) = None ->
  store_other obj t = Throw "TypeError".
Proof.
  intros Hproto Hnone. unfold store_other, get_property.
  rewrite Hnone, bool_decide_true by done. by rewrite Hnone.
Qed.

Lemma book_tag_throws b t :
  storable t = false ->
  (forall key, key ∈ Object_prototype -> Book.tags b !! key = None) ->
  book_tag b t = Throw "TypeError".
Proof.
  unfold storable, recognised. intros Hst Hinv.
  apply orb_false_iff in Hst as [Hrec Hproto].
  apply negb_false_iff, bool_decide_eq_true in Hproto.
  repeat (apply orb_false_iff in Hrec as [Hrec ?]).
  unfold book_tag. repeat (case_match; [congruence|]).
  by rewrite store_other_throws by auto.
Qed.

Lemma book_tag_keeps_prototype b t b' :
  storable t = true ->
  book_tag b t = Ok b' ->
  (forall key, key ∈ Object_prototype -> Book.tags b !! key = None) ->
  forall key, key ∈ Object_prototype -> Book.tags b' !! key = None.
Proof.
  intros Hst Hstep Hinv key Hkey.
  rewrite (book_tag_tags _ _ _ Hstep).
  unfold storable in Hst. destruct (recognised t); [by apply Hinv|].
  apply negb_true_iff, bool_decide_eq_false in Hst. cbv zeta.
  rewrite lookup_insert_ne; [by apply Hinv|].
  intros Heq. apply Hst. by rewrite Heq.
Qed.

Lemma forEach_book_tag_throws ts b :
  forallb storable ts = false ->
  (forall key, key ∈ Object_prototype -> Book.tags b !! key = None) ->
  forEach book_tag ts b = Throw "TypeError".
Proof.
  revert b. induction ts as [|t ts IH]; intros b Hall Hinv; [done|].
  simpl in Hall. cbn [forEach]. destruct (storable t) eqn:Hst.
  - destruct (book_tag_returns b t Hst) as [b1 Hstep]. rewrite Hstep.
    cbn [mbind result_bind]. apply IH; [done|].
    by apply (book_tag_keeps_prototype b t).
  - by rewrite book_tag_throws.
Qed.

(** The decoder throws on every other event. *)
Lemma book_of_event_throws event :
  decodable event = false -> book_of_event event = Throw "TypeError".
Proof.
  intros Hd. apply forEach_book_tag_throws; [done|].
  intros key _. apply lookup_empty.
Qed.

(** The envelope fields of a decoded book are those of the event. *)
Lemma book_of_event_envelope event book :
  book_of_event event = Ok book ->
  Book.id book = Event.id event /\ Book.pubkey book = Event.pubkey event /\
  Book.created_at book = Event.created_at event /\
  Book.description book = Event.content event.
Proof. intros Hbook. exact (forEach_frame _ _ _ Hbook). Qed.

(** [authors] holds the arguments of the last [authors] tag. *)
Lemma book_of_event_authors event book :
  book_of_event event = Ok book ->
  Book.authors book = slice1 <$> last (filter (keyed "authors") (Event.tags event)).
Proof.
  intros Hbook. rewrite (forEach_authors _ _ _ Hbook). by case_match.
Qed.

(** [fetchBooks] returns the books of all the events, in order, when every
    event is decodable, and throws as soon as one is not. *)
Lemma fetchBooks_returns events :
  forallb decodable events = true ->
  exists books,
    fetchBooks events = Ok books /\
    Forall2 (fun event book => book_of_event event = Ok book) events books.
Proof.
  unfold fetchBooks. induction events as [|event events IH]; intros Hall.
  - exists []. by split.
  - cbn [forallb] in Hall. apply andb_true_iff in Hall as [Hd Hall].
    destruct (book_of_event_returns event Hd) as [book Hbook].
    destruct (IH Hall) as (books & Hbooks & Hforall).
    exists (book :: books). cbn [mapM]. rewrite Hbook. cbn [mbind result_bind].
    rewrite Hbooks. split; [done|]. by constructor.
Qed.

Lemma fetchBooks_throws events :
  forallb decodable events = false -> fetchBooks events = Throw "TypeError".
Proof.
  unfold fetchBooks. induction events as [|event events IH]; [done|].
  cbn [forallb mapM]. destruct (decodable event) eqn:Hd.
  - destruct (book_of_event_returns event Hd) as [book ->].
    cbn [mbind result_bind andb]. intros Hall. by rewrite (IH Hall).
  - intros _. by rewrite book_of_event_throws.
Qed.

End BookDecoder.

Section CatchAll.

Lemma forEach_tags ts b b' key :
  forEach book_tag ts b = Ok b' ->
  Book.tags b' !! key =
    match slice1 <$> filter (other_keyed key) ts with
    | [] => Book.tags b !! key
    | args => Some (default [] (Book.tags b !! key) ++ args)
    end.
Proof.
  revert b. induction ts as [|t ts IH]; intros b Hrun.
  - by injection Hrun as <-.
  - apply forEach_cons_Ok in Hrun as (b1 & Hstep & Hrun).
    rewrite (IH _ Hrun), (book_tag_tags _ _ _ Hstep), filter_cons.
    assert (other_keyed key t
            = negb (recognised t) && String.eqb (ToString (at_index t 0)) key)
      as Hok by done.
    destruct (recognised t); simpl in Hok.
    { by rewrite decide_False by (rewrite Hok; intros []). }
    cbv zeta.
    destruct (String.eqb_spec (ToString (at_index t 0)) key) as [->|Hne].
    + rewrite decide_True, lookup_insert_eq, fmap_cons by (by rewrite Hok).
      destruct (slice1 <$> filter _ ts); simpl; [done|].
      by rewrite <- app_assoc.
    + rewrite decide_False by (rewrite Hok; intros []).
      by rewrite lookup_insert_ne.
Qed.

Lemma other_keyed_own_key t :
  recognised t = false -> other_keyed (ToString (at_index t 0)) t = true.
Proof. intros Hrec. unfold other_keyed. by rewrite Hrec, String.eqb_refl. Qed.

End CatchAll.

(** C8. The decoder does not collect the genres of every Book event with
    several [genre] tags: on the tags [[genre, "scifi"]],
    [[genre, "classic"]], [[constructor, "x"]] the tag loop reaches the
    catch-all branch with a key that names a member of [Object.prototype],
    finds [book.tags[key]] truthy, calls its missing [push], and
    [fetchBooks] throws a [TypeError] instead of returning a book whose
    genres are [["scifi", "classic"]]. *)
Theorem genre_tags_with_constructor_tag_throw :
  book_of_event
    (Event.mk 30051 0
       [[Str "genre"; Str "scifi"]; [Str "genre"; Str "classic"];
        [Str "constructor"; Str "x"]]
       (Str "") (Str "pk") (Str "id") (Str "sig"))
  = Throw "TypeError" /\
  fetchBooks
    [Event.mk 30051 0
       [[Str "genre"; Str "scifi"]; [Str "genre"; Str "classic"];
        [Str "constructor"; Str "x"]]
       (Str "") (Str "pk") (Str "id") (Str "sig")]
  = Throw "TypeError".
Proof. split; reflexivity. Qed.

(** C5. The book decoder does not bind a single-value field to its last
    tag on every event with duplicate tags: on the tags [[title, "A"]],
    [[title, "B"]], [[constructor, "x"]] the tag loop reaches the catch-all
    branch with a key that names a member of [Object.prototype], finds
    [book.tags[key]] truthy, calls its missing [push], and [fetchBooks]
    throws a [TypeError] instead of returning a book titled ["B"]. *)
Theorem duplicate_tags_with_constructor_tag_throw :
  book_of_event
    (Event.mk 30051 0
       [[Str "title"; Str "A"]; [Str "title"; Str "B"];
        [Str "constructor"; Str "x"]]
       (Str "") (Str "pk") (Str "id") (Str "sig"))
  = Throw "TypeError" /\
  fetchBooks
    [Event.mk 30051 0
       [[Str "title"; Str "A"]; [Str "title"; Str "B"];
        [Str "constructor"; Str "x"]]
       (Str "") (Str "pk") (Str "id") (Str "sig")]
  = Throw "TypeError".
Proof. split; reflexivity. Qed.

(** C6, as the code has it.  [fetchBooks] keeps every tag whose key has no
    branch of its own in [book.tags], under its key, as the list of the
    argument lists ([tag.slice(1)]) of the tags with that key, in tag
    order; a tag [[custom, "x", "y"]] is found under [custom] as the
    element [["x", "y"]] of that list.  The statement is about the events
    the decoder returns a book for ([decodable]).  [fetchUserBookshelves]
    has no such mapping. *)
Theorem book_other_tags_preserved (event : Event.t) :
  decodable event = true ->
  exists book,
    book_of_event event = Ok book /\
    (forall key,
       Book.tags book !! key =
         match slice1 <$> filter (other_keyed key) (Event.tags event) with
         | [] => None
         | args => Some args
         end) /\
    (forall t,
       t ∈ Event.tags event ->
       recognised t = false ->
       exists args,
         Book.tags book !! ToString (at_index t 0) = Some args /\
         slice1 t ∈ args).
Proof.
  intros Hd. destruct (book_of_event_returns event Hd) as [book Hbook].
  exists book. split; [done|].
  assert (forall key,
    Book.tags book !! key =
      match slice1 <$> filter (other_keyed key) (Event.tags event) with
      | [] => None
      | args => Some args
      end) as Hkeys.
  { intros key. rewrite (forEach_tags _ _ _ key Hbook); simpl.
    rewrite lookup_empty. by case_match. }
  split; [exact Hkeys|].
  intros t Hin Hrec.
  assert (slice1 t ∈ slice1 <$> filter (other_keyed (ToString (at_index t 0)))
                                   (Event.tags event)) as Hargs.
  { apply list_elem_of_fmap_2, list_elem_of_filter. split; [|done].
    by rewrite other_keyed_own_key. }
  rewrite Hkeys. destruct (slice1 <$> filter _ (Event.tags event)) as [|a args].
  - by apply elem_of_nil in Hargs.
  - eauto.
Qed.

Lemma book_other_tags_preserved_witness :
  exists book,
    book_of_event
      (Event.mk 30051 0
         [[Str "d"; Str "b1"]; [Str "custom"; Str "x"; Str "y"]; [Str "title"; Str "Dune"];
          [Str "custom"; Str "z"]]
         (Str "") (Str "pk") (Str "id") (Str "sig")) = Ok book /\
    Book.tags book !! "custom" = Some [[Str "x"; Str "y"]; [Str "z"]].
Proof.
  destruct (book_other_tags_preserved
    (Event.mk 30051 0
       [[Str "d"; Str "b1"]; [Str "custom"; Str "x"; Str "y"]; [Str "title"; Str "Dune"];
        [Str "custom"; Str "z"]]
       (Str "") (Str "pk") (Str "id") (Str "sig")) eq_refl)
    as (book & Hbook & Hkeys & _).
  exists book. split; [exact Hbook | exact (Hkeys "custom")].
Defined.

(** C6, as the specification states it, fails on bookshelf events: the tag
    loop of [fetchUserBookshelves] has no [else] branch and the bookshelf
    object no catch-all field, so an event with the tag
    [[custom, "x", "y"]] decodes to the very bookshelf that the event
    without it decodes to. *)
Lemma bookshelf_drops_other_tags :
  shelf_of_event
    (Event.mk 30052 0
       [[Str "d"; Str "shelf"]; [Str "custom"; Str "x"; Str "y"];
        [Str "book"; Str "e1"; Str "read"]]
       (Str "") (Str "pk") (Str "id") (Str "sig"))
  = Bookshelf.mk (Str "id") (Str "pk") 0 (Str "")
      [ShelfBook.mk (Str "e1") (Str "read") Undefined Undefined]
      (Str "shelf") Undefined Undefined
  /\
  shelf_of_event
    (Event.mk 30052 0
       [[Str "d"; Str "shelf"]; [Str "custom"; Str "x"; Str "y"];
        [Str "book"; Str "e1"; Str "read"]]
       (Str "") (Str "pk") (Str "id") (Str "sig"))
  = shelf_of_event
      (Event.mk 30052 0
         [[Str "d"; Str "shelf"]; [Str "book"; Str "e1"; Str "read"]]
         (Str "") (Str "pk") (Str "id") (Str "sig")).
Proof. split; reflexivity. Qed.

(** ** The encoders *)

Section BookEncoder.
Context `{NostrTools}.

(** The tag list built by [createBookEvent]: seven tags that are always
    there, then one tag per genre, then the summary if there is one. *)
Lemma createBookEvent_tags now privateKey bookData authors :
  BookData.authors bookData = Some authors ->
  exists event,
    createBookEvent now privateKey bookData = Ok event /\
    Event.content event = js_or (BookData.description bookData) (Str "") /\
    Event.tags event =
      [ [Str "d"; BookData.id bookData];
        [Str "title"; BookData.title bookData];
        Str "authors" :: authors;
        [Str "isbn"; js_or (BookData.isbn bookData) (Str "")];
        [Str "published"; js_or (BookData.publishDate bookData) (Str "")];
        [Str "publisher"; js_or (BookData.publisher bookData) (Str "")];
        [Str "cover"; js_or (BookData.coverUrl bookData) (Str "")] ]
      ++ ((fun genre => [Str "genre"; genre])
            <$> default [] (BookData.genres bookData))
      ++ (if truthy (BookData.summary bookData)
          then [[Str "summary"; BookData.summary bookData]] else []).
Proof.
  intros Hauthors. unfold createBookEvent. rewrite Hauthors.
  eexists. split; [reflexivity|]. split; [reflexivity|].
  unfold finish. cbn [Event.tags Event.set_sig Event.set_id].
  destruct (BookData.genres bookData) as [[|g gs]|];
    destruct (truthy (BookData.summary bookData));
    cbn [default from_option id fmap list_fmap];
    rewrite ?app_nil_r; reflexivity.
Qed.

Lemma filter_genre_tags (k : string) (genres : list value) :
  String.eqb "genre" k = false ->
  filter (keyed k) ((fun genre => [Str "genre"; genre]) <$> genres) = [].
Proof.
  intros Hk. induction genres as [|g gs IH]; [done|].
  rewrite fmap_cons, filter_cons, decide_False; [done|].
  rewrite keyed_cons, Hk. intros [].
Qed.

(** Decoding the genre tags that the encoder appends. *)
Lemma forEach_genre_tags (genres : list value) (b : Book.t) :
  forEach book_tag ((fun genre => [Str "genre"; genre]) <$> genres) b =
  Ok (match genres with
      | [] => b
      | _ => Book.set_genres (Some (default [] (Book.genres b) ++ genres)) b
      end).
Proof.
  revert b. induction genres as [|g gs IH]; intros b; [done|].
  rewrite fmap_cons. cbn [forEach]. change (book_tag b [Str "genre"; g])
    with (Ok (Book.set_genres (Some (default [] (Book.genres b) ++ [g])) b)).
  cbn [mbind result_bind]. rewrite IH. destruct gs as [|g' gs]; [done|].
  cbn [Book.genres Book.set_genres default from_option id].
  by rewrite <- app_assoc.
Qed.

End BookEncoder.

(** C2, as the code has it.  For every Book input that has an authors
    array, the tag list built by [createBookEvent] holds exactly one tag
    for each of [isbn], [published], [publisher] and [cover], whose value
    is the field when it is truthy and the empty string otherwise; only the
    [summary] tag is left out when its field is absent or falsy. *)
Theorem createBookEvent_single_value_tags `{NostrTools}
    (now : Z) (privateKey : value) (bookData : BookData.t) (authors : list value) :
  BookData.authors bookData = Some authors ->
  exists event,
    createBookEvent now privateKey bookData = Ok event /\
    filter (keyed "isbn") (Event.tags event)
      = [[Str "isbn"; js_or (BookData.isbn bookData) (Str "")]] /\
    filter (keyed "published") (Event.tags event)
      = [[Str "published"; js_or (BookData.publishDate bookData) (Str "")]] /\
    filter (keyed "publisher") (Event.tags event)
      = [[Str "publisher"; js_or (BookData.publisher bookData) (Str "")]] /\
    filter (keyed "cover") (Event.tags event)
      = [[Str "cover"; js_or (BookData.coverUrl bookData) (Str "")]] /\
    filter (keyed "summary") (Event.tags event)
      = (if truthy (BookData.summary bookData)
         then [[Str "summary"; BookData.summary bookData]] else []).
Proof.
  intros Hauthors.
  destruct (createBookEvent_tags now privateKey bookData authors Hauthors)
    as (event & Hevent & _ & Htags).
  exists event. split; [done|]. rewrite Htags.
  rewrite !filter_app, !filter_genre_tags by done.
  by destruct (truthy (BookData.summary bookData)).
Qed.

Lemma createBookEvent_single_value_tags_witness :
  exists event,
    @createBookEvent fixed_tools 1700000000123 (Str "sk") dune = Ok event /\
    filter (keyed "isbn") (Event.tags event) = [[Str "isbn"; Str ""]] /\
    filter (keyed "published") (Event.tags event) = [[Str "published"; Str ""]] /\
    filter (keyed "publisher") (Event.tags event) = [[Str "publisher"; Str "Ace"]] /\
    filter (keyed "cover") (Event.tags event) = [[Str "cover"; Str ""]] /\
    filter (keyed "summary") (Event.tags event) = [].
Proof.
  exact (@createBookEvent_single_value_tags fixed_tools 1700000000123 (Str "sk")
           dune [Str "Frank Herbert"] eq_refl).
Defined.

(** C2, as the specification states it, fails: for a book whose isbn is
    the empty string and whose publication date and cover are absent, the
    encoder emits the tags [[isbn, ""]], [[published, ""]] and
    [[cover, ""]]. *)
Lemma createBookEvent_emits_empty_values :
  @createBookEvent fixed_tools 1700000000123 (Str "sk") dune
  = Ok (Event.mk 30051 1700000000
          [ [Str "d"; Str "b1"]; [Str "title"; Str "Dune"];
            [Str "authors"; Str "Frank Herbert"];
            [Str "isbn"; Str ""]; [Str "published"; Str ""];
            [Str "publisher"; Str "Ace"]; [Str "cover"; Str ""];
            [Str "genre"; Str "scifi"]; [Str "genre"; Str "classic"] ]
          (Str "A desert planet.") (Str "pk") (Str "id") (Str "sig")).
Proof. reflexivity. Qed.

(** C1, as the code has it.  For every Book input that has an authors
    array, decoding the event that [createBookEvent] builds returns a book
    whose [uniqueId], [title] and [authors] are the input's [id], [title]
    and [authors]; whose [isbn], [publishDate], [publisher], [coverUrl] and
    [description] are the input's when truthy and the empty string
    otherwise; whose [summary] is the input's when truthy and absent
    otherwise; whose [genres] are the input's when there is at least one
    and absent otherwise; and whose catch-all mapping is empty. *)
Theorem book_roundtrip `{NostrTools}
    (now : Z) (privateKey : value) (bookData : BookData.t) (authors : list value) :
  BookData.authors bookData = Some authors ->
  exists event book,
    createBookEvent now privateKey bookData = Ok event /\
    book_of_event event = Ok book /\
    Book.uniqueId book = BookData.id bookData /\
    Book.title book = BookData.title bookData /\
    Book.authors book = Some authors /\
    Book.isbn book = js_or (BookData.isbn bookData) (Str "") /\
    Book.publishDate book = js_or (BookData.publishDate bookData) (Str "") /\
    Book.publisher book = js_or (BookData.publisher bookData) (Str "") /\
    Book.coverUrl book = js_or (BookData.coverUrl bookData) (Str "") /\
    Book.genres book =
      match BookData.genres bookData with
      | Some (g :: gs) => Some (g :: gs)
      | _ => None
      end /\
    Book.summary book =
      (if truthy (BookData.summary bookData)
       then BookData.summary bookData else Undefined) /\
    Book.description book = js_or (BookData.description bookData) (Str "") /\
    Book.tags book = ∅.
Proof.
  intros Hauthors.
  destruct (createBookEvent_tags now privateKey bookData authors Hauthors)
    as (event & Hevent & Hcontent & Htags).
  exists event. unfold book_of_event. rewrite Htags, Hcontent, !forEach_app.
  cbn [forEach]. change (book_tag ?b (Str "authors" :: authors))
    with (Ok (Book.set_authors (Some authors) b)).
  cbn -[js_or truthy forEach].
  rewrite forEach_app, forEach_genre_tags. cbn [mbind result_bind].
  destruct (truthy (BookData.summary bookData));
    destruct (BookData.genres bookData) as [[|g gs]|];
    (eexists; split; [exact Hevent|]; split; [reflexivity|]);
    cbn -[js_or]; repeat split; reflexivity.
Qed.

Lemma book_roundtrip_witness :
  exists event book,
    @createBookEvent fixed_tools 1700000000123 (Str "sk") dune = Ok event /\
    book_of_event event = Ok book /\
    Book.uniqueId book = Str "b1" /\
    Book.title book = Str "Dune" /\
    Book.authors book = Some [Str "Frank Herbert"] /\
    Book.isbn book = Str "" /\
    Book.publishDate book = Str "" /\
    Book.publisher book = Str "Ace" /\
    Book.coverUrl book = Str "" /\
    Book.genres book = Some [Str "scifi"; Str "classic"] /\
    Book.summary book = Undefined /\
    Book.description book = Str "A desert planet." /\
    Book.tags book = ∅.
Proof.
  exact (@book_roundtrip fixed_tools 1700000000123 (Str "sk") dune
           [Str "Frank Herbert"] eq_refl).
Defined.

(** C1, as the specification states it, fails: a book whose required
    fields are present and whose isbn is the empty string decodes, after
    encoding, to a book whose isbn is the empty string, not an absent one;
    its publication date and cover, absent in the input, come back as
    empty strings too. *)
Lemma book_roundtrip_keeps_empty_isbn :
  BookData.isbn dune = Str "" /\
  BookData.publishDate dune = Undefined /\
  (event ← @createBookEvent fixed_tools 1700000000123 (Str "sk") dune;
   book_of_event event)
  = Ok (Book.mk (Str "id") (Str "pk") 1700000000 (Str "A desert planet.") ∅
          (Str "b1") (Str "Dune") (Some [Str "Frank Herbert"])
          (Str "") (Str "") (Str "Ace") (Str "")
          (Some [Str "scifi"; Str "classic"]) Undefined).
Proof. repeat split. Qed.

(** C4, as the code has it.  [createBookReviewEvent] checks nothing: it
    throws only when [rating] is [undefined], and then the [TypeError] of
    calling [toString] on [undefined]; for every other input, whatever
    [bookEventId] and [rating] are, it returns an event whose first two
    tags are [[e, bookEventId]] and [[rating, rating.toString()]], and
    that event has no [read] tag when [readDate] is absent or falsy. *)
Theorem createBookReviewEvent_outcomes `{NostrTools}
    (now : Z) (privateKey : value) (reviewData : ReviewData.t) :
  (ReviewData.rating reviewData = Undefined ->
   createBookReviewEvent now privateKey reviewData = Throw "TypeError") /\
  (ReviewData.rating reviewData <> Undefined ->
   exists event,
     createBookReviewEvent now privateKey reviewData = Ok event /\
     take 2 (Event.tags event) =
       [ [Str "e"; ReviewData.bookEventId reviewData];
         [Str "rating"; Str (ToString (ReviewData.rating reviewData))] ] /\
     (truthy (ReviewData.readDate reviewData) = false ->
      filter (keyed "read") (Event.tags event) = [])).
Proof.
  unfold createBookReviewEvent. split.
  - by intros ->.
  - intros Hrating.
    assert (toString (ReviewData.rating reviewData)
            = Ok (ToString (ReviewData.rating reviewData))) as ->
      by (by destruct (ReviewData.rating reviewData)).
    eexists. split; [reflexivity|]. unfold finish.
    cbn [mbind result_bind Event.tags Event.set_sig Event.set_id].
    split.
    + by repeat case_match.
    + intros ->. by case_match.
Qed.

Lemma createBookReviewEvent_outcomes_witness :
  exists event,
    @createBookReviewEvent fixed_tools 1700000000123 (Str "sk")
      (ReviewData.mk (Str "e1") (Num 5) Undefined Undefined (Str "Loved it."))
    = Ok event /\
    take 2 (Event.tags event) = [[Str "e"; Str "e1"]; [Str "rating"; Str "5"]] /\
    filter (keyed "read") (Event.tags event) = [].
Proof.
  destruct (proj2 (@createBookReviewEvent_outcomes fixed_tools 1700000000123
    (Str "sk")
    (ReviewData.mk (Str "e1") (Num 5) Undefined Undefined (Str "Loved it.")))
    ltac:(discriminate)) as (event & Hevent & Htags & Hread).
  exists event. split; [exact Hevent|]. split; [exact Htags|].
  exact (Hread eq_refl).
Defined.

(** C4, as the specification states it, fails: a review whose rating is
    no integer is encoded without complaint, so is a review without
    [bookEventId], and a review without [rating] fails with a [TypeError],
    not with a [ValidationError]. *)
Lemma createBookReviewEvent_validates_nothing :
  @createBookReviewEvent fixed_tools 1700000000123 (Str "sk")
    (ReviewData.mk (Str "e1") (Str "five stars") Undefined Undefined Undefined)
  = Ok (Event.mk 30053 1700000000
          [[Str "e"; Str "e1"]; [Str "rating"; Str "five stars"]]
          (Str "") (Str "pk") (Str "id") (Str "sig"))
  /\
  @createBookReviewEvent fixed_tools 1700000000123 (Str "sk")
    (ReviewData.mk Undefined (Num 5) Undefined Undefined Undefined)
  = Ok (Event.mk 30053 1700000000
          [[Str "e"; Undefined]; [Str "rating"; Str "5"]]
          (Str "") (Str "pk") (Str "id") (Str "sig"))
  /\
  @createBookReviewEvent fixed_tools 1700000000123 (Str "sk")
    (ReviewData.mk (Str "e1") Undefined Undefined Undefined (Str "Loved it."))
  = Throw "TypeError".
Proof. repeat split. Qed.

(** * Further properties of the code *)

(** ** Numbers as the program has them

    The definitions of the numbers, evaluated where doubles and integers
    part. *)

Example round_double_examples :
  round_double (2 ^ 53 + 1) = Int (2 ^ 53) /\
  round_double (2 ^ 53 + 3) = Int (2 ^ 53 + 4) /\
  round_double (- (2 ^ 53) - 1) = Int (- (2 ^ 53)) /\
  round_double (2 ^ 1024 - 2 ^ 970 - 1) = Int (2 ^ 1024 - 2 ^ 971) /\
  round_double (2 ^ 1024 - 2 ^ 970) = Infinity false.
Proof. by vm_compute. Qed.

Example num_add_rounds :
  num_add (num_add (Int (2 ^ 53)) (Int 1)) (Int 1) = Int (2 ^ 53) /\
  num_add (num_add (Int 1) (Int 1)) (Int (2 ^ 53)) = Int (2 ^ 53 + 2) /\
  num_add (Infinity false) (Infinity true) = NaN.
Proof. by vm_compute. Qed.

Example Z_toString_large :
  Z_toString (2 ^ 53 + 1) = "9007199254740992" /\
  Z_toString (2 ^ 64) = "18446744073709552000" /\
  Z_toString (10 ^ 21) = "1e+21" /\
  Z_toString (2 ^ 70) = "1.1805916207174113e+21" /\
  Z_toString (- 2 ^ 70) = "-1.1805916207174113e+21" /\
  Z_toString (2 ^ 1024) = "Infinity".
Proof. by vm_compute. Qed.

Example parseInt_rounds :
  parseInt (Str "9007199254740993") = Int 9007199254740992.
Proof. by vm_compute. Qed.

(** The bytes [194], [160] are the no-break space. *)
Example parseInt_no_break_space :
  parseInt (Str (String (ascii_of_nat 194) (String (ascii_of_nat 160) "500")))
  = Int 500.
Proof. by vm_compute. Qed.

Example trim_no_break_space :
  trim (String (ascii_of_nat 194) (String (ascii_of_nat 160) "sci-fi "))
  = "sci-fi".
Proof. by vm_compute. Qed.

(** Beyond 2^53 the total depends on the order of the receipts. *)
Example getZapStats_order_matters :
  ZapStats.totalSats
    (getZapStats
       [ receipt [[Str "amount"; Str "9007199254740992"]] (Str "A");
         receipt [[Str "amount"; Str "1"]] (Str "B");
         receipt [[Str "amount"; Str "1"]] (Str "C") ])
  = Int 9007199254740992 /\
  ZapStats.totalSats
    (getZapStats
       [ receipt [[Str "amount"; Str "1"]] (Str "B");
         receipt [[Str "amount"; Str "1"]] (Str "C");
         receipt [[Str "amount"; Str "9007199254740992"]] (Str "A") ])
  = Int 9007199254740994.
Proof. by vm_compute. Qed.

(** ** Arithmetic of the zap statistics *)

Section ZapArithmetic.

(** Below 2^53 an integer is a double. *)
Lemma round_double_exact (z : Z) : Z.abs z < 2 ^ 53 -> round_double z = Int z.
Proof.
  intros Hz. unfold round_double. cbv zeta.
  by rewrite (proj2 (Z.ltb_lt _ _) Hz).
Qed.

Lemma round_double_not_NaN (z : Z) : round_double z <> NaN.
Proof. unfold round_double. cbv zeta. by repeat case_match. Qed.

Lemma add_amount_added (sum : number) (r : Event.t) :
  add_amount sum r =
  match amount_added r with
  | Some p => num_add sum p
  | None => sum
  end.
Proof.
  unfold add_amount, amount_added.
  destruct (List.find _ _) as [amountTag|]; [|done].
  by destruct (truthy (at_index amountTag 1)).
Qed.

Lemma sum_permutation (f : Event.t -> Z) (rs rs' : list Event.t) :
  rs ≡ₚ rs' -> foldr Z.add 0 (f <$> rs) = foldr Z.add 0 (f <$> rs').
Proof.
  induction 1 as [|r rs rs' _ IH|r r' rs|rs rs' rs'' _ IH1 _ IH2];
    rewrite ?fmap_cons; cbn [foldr]; lia.
Qed.

Lemma abs_sum_nonneg (rs : list Event.t) :
  0 <= foldr Z.add 0 ((fun r => Z.abs (default 0 (amount_int r))) <$> rs).
Proof. induction rs as [|r rs IH]; [done|]. rewrite fmap_cons. cbn [foldr]. lia. Qed.

Lemma abs_sum_bound (rs : list Event.t) :
  Z.abs (foldr Z.add 0 ((fun r => default 0 (amount_int r)) <$> rs))
  <= foldr Z.add 0 ((fun r => Z.abs (default 0 (amount_int r))) <$> rs).
Proof.
  induction rs as [|r rs IH]; [done|]. rewrite !fmap_cons. cbn [foldr]. lia.
Qed.

(** While the absolute values stay below 2^53 in sum, the reducer computes
    the exact sum. *)
Lemma fold_add_amount_exact (rs : list Event.t) (s : Z) :
  Forall (fun r => is_Some (amount_int r)) rs ->
  Z.abs s + foldr Z.add 0 ((fun r => Z.abs (default 0 (amount_int r))) <$> rs)
    < 2 ^ 53 ->
  foldl add_amount (Int s) rs
  = Int (s + foldr Z.add 0 ((fun r => default 0 (amount_int r)) <$> rs)).
Proof.
  revert s. induction rs as [|r rs IH]; intros s Hall Hbound.
  - cbn. f_equal. lia.
  - apply Forall_cons in Hall as [[c Hc] Hall].
    rewrite !fmap_cons in *. cbn [foldl foldr] in *. rewrite Hc in *.
    cbn [default from_option id] in *.
    pose proof (abs_sum_nonneg rs) as Hnonneg.
    rewrite add_amount_added. unfold amount_int in Hc.
    destruct (amount_added r) as [[|c'|]|]; simplify_eq.
    + cbn [num_add]. rewrite round_double_exact by lia.
      rewrite IH by (done || lia). f_equal. lia.
    + rewrite IH by (done || lia). f_equal; lia.
Qed.

Lemma amounts_exact_spec (events : list Event.t) :
  amounts_exact events = true <->
  Forall (fun r => is_Some (amount_int r))
    (filter (fun e => Event.kind e = 9735) events) /\
  foldr Z.add 0
    ((fun r => Z.abs (default 0 (amount_int r)))
       <$> filter (fun e => Event.kind e = 9735) events) < 2 ^ 53.
Proof.
  unfold amounts_exact. rewrite andb_true_iff, Z.ltb_lt, forallb_forall, Forall_forall.
  split; intros [Hall Hbound]; (split; [|done]); intros r Hr.
  - apply list_elem_of_In, Hall in Hr. by apply bool_decide_eq_true in Hr.
  - apply bool_decide_eq_true, Hall, list_elem_of_In, Hr.
Qed.

Lemma totalSats_exact (events : list Event.t) :
  amounts_exact events = true ->
  ZapStats.totalSats (getZapStats events) = Int (amount_total events).
Proof.
  intros [Hall Hbound]%amounts_exact_spec.
  unfold getZapStats, amount_total. cbn [ZapStats.totalSats].
  by rewrite fold_add_amount_exact by (done || (cbn [Z.abs]; lia)).
Qed.

Lemma amounts_exact_permutation (events events' : list Event.t) :
  events ≡ₚ events' -> amounts_exact events = true ->
  amounts_exact events' = true /\ amount_total events' = amount_total events.
Proof.
  intros Hperm [Hall Hbound]%amounts_exact_spec.
  assert (filter (fun e => Event.kind e = 9735) events
          ≡ₚ filter (fun e => Event.kind e = 9735) events') as Hreceipts
    by (by rewrite Hperm).
  split.
  - apply amounts_exact_spec. split.
    + by rewrite <- Hreceipts.
    + by rewrite <- (sum_permutation _ _ _ Hreceipts).
  - unfold amount_total. symmetry. by apply sum_permutation.
Qed.

Lemma new_Set_bounds (xs s : list value) :
  (length s <= length (foldl Set_add s xs) <= length s + length xs)%nat.
Proof.
  revert s. induction xs as [|x xs IH]; intros s; cbn [foldl length]; [lia|].
  specialize (IH (Set_add s x)). unfold Set_add in *.
  case_bool_decide; rewrite ?length_app in IH; simpl in IH; lia.
Qed.

Lemma new_Set_nonempty (x : value) (xs : list value) :
  (1 <= length (new_Set (x :: xs)))%nat.
Proof.
  unfold new_Set. cbn [foldl].
  pose proof (new_Set_bounds xs (Set_add [] x)) as Hb.
  unfold Set_add in Hb at 1. rewrite bool_decide_false in Hb by apply not_elem_of_nil.
  simpl in Hb. lia.
Qed.

(** A sum is [NaN] only if a term is, or if the terms are the two
    infinities. *)
Lemma num_add_NaN_inv (a p : number) :
  num_add a p = NaN -> a = NaN \/ p = NaN \/ exists negative, p = Infinity negative.
Proof.
  destruct a as [|x|s], p as [|y|t]; cbn [num_add]; intros Hnan; eauto.
  by apply round_double_not_NaN in Hnan.
Qed.

Lemma fold_add_amount_NaN_inv (rs : list Event.t) (sum : number) :
  Forall (fun r => forall negative, amount_added r <> Some (Infinity negative)) rs ->
  foldl add_amount sum rs = NaN ->
  sum = NaN \/ exists r, r ∈ rs /\ amount_added r = Some NaN.
Proof.
  revert sum. induction rs as [|r rs IH]; intros sum Hfinite; cbn [foldl];
    [by left|].
  apply Forall_cons in Hfinite as [Hr Hfinite].
  intros Hnan. destruct (IH _ Hfinite Hnan) as [Hstep|(r' & Hin & Hr')].
  - rewrite add_amount_added in Hstep.
    destruct (amount_added r) as [p|] eqn:Hp; [|by left].
    apply num_add_NaN_inv in Hstep as [?|[->|[negative ->]]].
    + by left.
    + right. exists r. split; [left|done].
    + by destruct (Hr negative).
  - right. exists r'. split; [by right|done].
Qed.

Lemma amount_added_NaN (r : Event.t) :
  amount_added r = Some NaN <->
  exists amountTag,
    List.find (keyed "amount") (Event.tags r) = Some amountTag /\
    truthy (at_index amountTag 1) = true /\
    parseInt (at_index amountTag 1) = NaN.
Proof.
  unfold amount_added. split.
  - destruct (List.find _ _) as [amountTag|]; [|done].
    destruct (truthy (at_index amountTag 1)) eqn:Htruthy; [|done].
    intros [= Hparse]. eauto.
  - intros (amountTag & -> & -> & ->). done.
Qed.

End ZapArithmetic.

(** X1. When every receipt stands for an integer and the absolute values
    of these integers add up to less than 2^53, the total is their exact
    sum, and [getZapStats] returns the same statistics for every
    permutation of its input.  (Beyond that bound the additions round, and
    the total depends on the order of the receipts.) *)
Theorem getZapStats_permutation (events events' : list Event.t) :
  amounts_exact events = true ->
  events ≡ₚ events' ->
  ZapStats.totalSats (getZapStats events) = Int (amount_total events) /\
  getZapStats events' = getZapStats events.
Proof.
  intros Hexact Hperm. split; [by apply totalSats_exact|].
  destruct (amounts_exact_permutation events events' Hperm Hexact)
    as [Hexact' Htotal].
  pose proof (totalSats_exact events Hexact) as Hsum.
  pose proof (totalSats_exact events' Hexact') as Hsum'.
  rewrite Htotal, <- Hsum in Hsum'.
  unfold getZapStats in *. cbn [ZapStats.totalSats] in *.
  assert (filter (fun e => Event.kind e = 9735) events
          ≡ₚ filter (fun e => Event.kind e = 9735) events') as Hreceipts
    by (by rewrite Hperm).
  f_equal.
  - exact Hsum'.
  - symmetry. by apply Permutation_length.
  - rewrite !new_Set_size. f_equal. apply list_to_set_perm_L.
    by rewrite Hreceipts.
Qed.

Lemma getZapStats_permutation_witness :
  ZapStats.totalSats
    (getZapStats
       [ receipt [[Str "amount"; Str "1000"]] (Str "A");
         receipt [] (Str "C");
         receipt [[Str "amount"; Str "500"]] (Str "B") ])
  = Int 1500 /\
  getZapStats
    [ receipt [] (Str "C");
      receipt [[Str "amount"; Str "1000"]] (Str "A");
      receipt [[Str "amount"; Str "500"]] (Str "B") ]
  = getZapStats
      [ receipt [[Str "amount"; Str "1000"]] (Str "A");
        receipt [] (Str "C");
        receipt [[Str "amount"; Str "500"]] (Str "B") ].
Proof.
  apply (getZapStats_permutation
    [ receipt [[Str "amount"; Str "1000"]] (Str "A");
      receipt [] (Str "C");
      receipt [[Str "amount"; Str "500"]] (Str "B") ]).
  - reflexivity.
  - apply perm_swap.
Defined.

(** X2. The statistics of two batches combine: the receipt count of the
    concatenation is the sum of the counts, and the number of unique
    zappers is at least that of each batch and at most their sum.  When no
    addition has to round (see X1), the total of the concatenation is the
    sum of the two totals. *)
Theorem getZapStats_app (xs ys : list Event.t) :
  ZapStats.zapCount (getZapStats (xs ++ ys))
    = (ZapStats.zapCount (getZapStats xs) + ZapStats.zapCount (getZapStats ys))%nat /\
  (ZapStats.uniqueZappers (getZapStats xs)
     <= ZapStats.uniqueZappers (getZapStats (xs ++ ys)))%nat /\
  (ZapStats.uniqueZappers (getZapStats ys)
     <= ZapStats.uniqueZappers (getZapStats (xs ++ ys)))%nat /\
  (ZapStats.uniqueZappers (getZapStats (xs ++ ys))
     <= ZapStats.uniqueZappers (getZapStats xs)
        + ZapStats.uniqueZappers (getZapStats ys))%nat /\
  (amounts_exact (xs ++ ys) = true ->
   ZapStats.totalSats (getZapStats (xs ++ ys))
     = num_add (ZapStats.totalSats (getZapStats xs))
               (ZapStats.totalSats (getZapStats ys))).
Proof.
  split_and!.
  - unfold getZapStats. cbn [ZapStats.zapCount].
    by rewrite filter_app, length_app.
  - unfold getZapStats. cbn [ZapStats.uniqueZappers].
    rewrite filter_app, fmap_app, !new_Set_size, list_to_set_app_L.
    apply subseteq_size, union_subseteq_l.
  - unfold getZapStats. cbn [ZapStats.uniqueZappers].
    rewrite filter_app, fmap_app, !new_Set_size, list_to_set_app_L.
    apply subseteq_size, union_subseteq_r.
  - unfold getZapStats. cbn [ZapStats.uniqueZappers].
    rewrite filter_app, fmap_app, !new_Set_size, list_to_set_app_L.
    rewrite size_union_alt.
    apply Nat.add_le_mono_l, subseteq_size, subseteq_difference_l. done.
  - intros Hexact. pose proof Hexact as [Hall Hbound]%amounts_exact_spec.
    rewrite filter_app in Hall, Hbound.
    apply Forall_app in Hall as [Hxs Hys].
    rewrite fmap_app, foldr_app in Hbound.
    assert (forall (l : list Z) (a : Z), foldr Z.add a l = foldr Z.add 0 l + a)
      as Hshift.
    { induction l as [|z l IHl]; intros a; cbn [foldr]; [lia|].
      rewrite IHl. lia. }
    rewrite Hshift in Hbound.
    pose proof (abs_sum_nonneg (filter (fun e => Event.kind e = 9735) xs)).
    pose proof (abs_sum_nonneg (filter (fun e => Event.kind e = 9735) ys)).
    pose proof (abs_sum_bound (filter (fun e => Event.kind e = 9735) xs)).
    pose proof (abs_sum_bound (filter (fun e => Event.kind e = 9735) ys)).
    assert (amounts_exact xs = true) as Hexact_xs
      by (apply amounts_exact_spec; split; [done|lia]).
    assert (amounts_exact ys = true) as Hexact_ys
      by (apply amounts_exact_spec; split; [done|lia]).
    rewrite !totalSats_exact by done. cbn [num_add].
    unfold amount_total in *.
    rewrite round_double_exact by lia. f_equal.
    rewrite filter_app, fmap_app, foldr_app, Hshift. lia.
Qed.

Lemma getZapStats_app_witness :
  ZapStats.totalSats
    (getZapStats
       ([receipt [[Str "amount"; Str "1000"]] (Str "A")]
          ++ [receipt [[Str "amount"; Str "500"]] (Str "B")]))
  = num_add
      (ZapStats.totalSats
         (getZapStats [receipt [[Str "amount"; Str "1000"]] (Str "A")]))
      (ZapStats.totalSats
         (getZapStats [receipt [[Str "amount"; Str "500"]] (Str "B")])).
Proof.
  apply (getZapStats_app
    [receipt [[Str "amount"; Str "1000"]] (Str "A")]
    [receipt [[Str "amount"; Str "500"]] (Str "B")]).
  reflexivity.
Defined.
(** X3. Events of another kind are ignored without error: putting one
    anywhere in the input changes none of the statistics. *)
Theorem getZapStats_ignores_other_kinds (pre post : list Event.t) (e : Event.t) :
  Event.kind e <> 9735 ->
  getZapStats (pre ++ e :: post) = getZapStats (pre ++ post).
Proof.
  intros Hkind. unfold getZapStats.
  by rewrite !filter_app, filter_cons, decide_False.
Qed.

Lemma getZapStats_ignores_other_kinds_witness :
  getZapStats
    ([receipt [[Str "amount"; Str "1000"]] (Str "A")]
       ++ Event.mk 30051 0 [[Str "amount"; Str "7"]] (Str "") (Str "C")
            (Str "id") (Str "sig")
       :: [receipt [[Str "amount"; Str "500"]] (Str "B")])
  = getZapStats
      ([receipt [[Str "amount"; Str "1000"]] (Str "A")]
         ++ [receipt [[Str "amount"; Str "500"]] (Str "B")]).
Proof.
  apply getZapStats_ignores_other_kinds. discriminate.
Defined.

(** X4. There are never more unique zappers than receipts, and there is
    at least one as soon as there is a receipt; without receipts all three
    statistics are zero. *)
Theorem uniqueZappers_bounds (events : list Event.t) :
  (ZapStats.uniqueZappers (getZapStats events)
     <= ZapStats.zapCount (getZapStats events))%nat /\
  (ZapStats.uniqueZappers (getZapStats events) = 0%nat
     <-> ZapStats.zapCount (getZapStats events) = 0%nat) /\
  (ZapStats.zapCount (getZapStats events) = 0%nat ->
     getZapStats events = ZapStats.mk (Int 0) 0 0).
Proof.
  unfold getZapStats. cbn [ZapStats.zapCount ZapStats.uniqueZappers].
  set (zapReceipts := filter _ events).
  pose proof (new_Set_bounds (Event.pubkey <$> zapReceipts) []) as Hb.
  fold (new_Set (Event.pubkey <$> zapReceipts)) in Hb.
  rewrite length_fmap in Hb. simpl in Hb.
  split_and!.
  - lia.
  - split; [|lia]. destruct zapReceipts as [|r rs]; [done|].
    rewrite fmap_cons. pose proof (new_Set_nonempty (Event.pubkey r)
      (Event.pubkey <$> rs)). lia.
  - intros Hnone. by destruct zapReceipts.
Qed.

(** X5. As long as no receipt carries an amount so large that it reads as
    an infinity, the total is [NaN] exactly when some receipt carries, in
    its first [amount] tag, a truthy value that [parseInt] cannot read; a
    single such receipt is enough, wherever it stands. *)
Theorem totalSats_NaN_iff (events : list Event.t) :
  amounts_finite events = true ->
  ZapStats.totalSats (getZapStats events) = NaN <->
  exists r amountTag,
    r ∈ events /\ Event.kind r = 9735 /\
    List.find (keyed "amount") (Event.tags r) = Some amountTag /\
    truthy (at_index amountTag 1) = true /\
    parseInt (at_index amountTag 1) = NaN.
Proof.
  intros Hfinite. split.
  - unfold getZapStats. cbn [ZapStats.totalSats]. intros Hnan.
    apply fold_add_amount_NaN_inv in Hnan as [?|(r & Hin & Hr)]; [done|..].
    + apply list_elem_of_filter in Hin as [Hkind Hin].
      apply amount_added_NaN in Hr as (amountTag & ? & ? & ?).
      exists r, amountTag. done.
    + unfold amounts_finite in Hfinite. rewrite forallb_forall in Hfinite.
      apply Forall_forall. intros r Hr%list_elem_of_In negative Hadded.
      apply Hfinite in Hr. by rewrite Hadded in Hr.
  - intros (r & amountTag & Hin & Hkind & Hfind & Htruthy & Hparse).
    apply (totalSats_NaN events r amountTag); try done.
    by rewrite <- find_keyed_head.
Qed.

Lemma totalSats_NaN_iff_witness :
  ZapStats.totalSats
    (getZapStats
       [ receipt [[Str "amount"; Str "1000"]] (Str "A");
         receipt [[Str "amount"; Str "lots"]] (Str "B") ]) = NaN <->
  exists r amountTag,
    r ∈ [ receipt [[Str "amount"; Str "1000"]] (Str "A");
          receipt [[Str "amount"; Str "lots"]] (Str "B") ] /\
    Event.kind r = 9735 /\
    List.find (keyed "amount") (Event.tags r) = Some amountTag /\
    truthy (at_index amountTag 1) = true /\
    parseInt (at_index amountTag 1) = NaN.
Proof.
  apply (totalSats_NaN_iff
    [ receipt [[Str "amount"; Str "1000"]] (Str "A");
      receipt [[Str "amount"; Str "lots"]] (Str "B") ]).
  reflexivity.
Defined.

(** ** Numbers written and read back *)

Section Decimal.

Lemma read_digits_no_digit (s : string) (acc : option Z) :
  leading_digit s = false -> read_digits s acc = acc.
Proof.
  destruct s as [|c r]; [done|]. cbn [leading_digit read_digits].
  intros Hc. apply bool_decide_eq_false in Hc.
  destruct (digit_of c); [|done]. destruct Hc. eauto.
Qed.

Lemma append_String (c : ascii) (r s : string) :
  String.append (String c r) s = String c (String.append r s).
Proof. reflexivity. Qed.

Lemma append_empty (s : string) : String.append s "" = s.
Proof. induction s as [|c s IH]; [done|]. by rewrite append_String, IH. Qed.

Lemma read_digits_uint (d : Decimal.uint) (suffix : string) (acc : option Z) :
  leading_digit suffix = false ->
  read_digits (String.append (NilEmpty.string_of_uint d) suffix) acc =
    match d with
    | Decimal.Nil => acc
    | _ => Some (uint_val d (default 0 acc))
    end.
Proof.
  intros Hsuffix. revert acc.
  induction d as [|d IH|d IH|d IH|d IH|d IH|d IH|d IH|d IH|d IH|d IH];
    intros acc;
    [ by apply read_digits_no_digit | .. ];
    cbn [NilEmpty.string_of_uint uint_val]; rewrite append_String;
    cbn [read_digits];
    (change (digit_of _) with (Some 0) || change (digit_of _) with (Some 1)
     || change (digit_of _) with (Some 2) || change (digit_of _) with (Some 3)
     || change (digit_of _) with (Some 4) || change (digit_of _) with (Some 5)
     || change (digit_of _) with (Some 6) || change (digit_of _) with (Some 7)
     || change (digit_of _) with (Some 8) || change (digit_of _) with (Some 9));
    cbv iota; rewrite IH; by destruct d.
Qed.

Lemma of_uint_acc_val (d : Decimal.uint) (acc : positive) :
  Z.pos (Pos.of_uint_acc d acc) = uint_val d (Z.pos acc).
Proof.
  revert acc. induction d; intros acc; cbn [Pos.of_uint_acc uint_val];
    [done | rewrite IHd; f_equal; lia ..].
Qed.

Lemma of_uint_val (d : Decimal.uint) : Z.of_N (Pos.of_uint d) = uint_val d 0.
Proof.
  induction d; cbn [Pos.of_uint uint_val]; [done | exact IHd | ..];
    cbn [Z.of_N]; by rewrite of_uint_acc_val.
Qed.

Lemma uint_val_to_uint (p : positive) : uint_val (Pos.to_uint p) 0 = Z.pos p.
Proof. by rewrite <- of_uint_val, DecimalPos.Unsigned.of_to. Qed.

(** A text that starts with an ASCII character other than white space has
    no white space to skip. *)
Lemma trim_start_ascii (c : ascii) (r : string) :
  is_white c = false -> (nat_of_ascii c <? 128)%nat = true ->
  trim_start (String c r) = String c r.
Proof.
  intros Hwhite Hc%Nat.ltb_lt.
  assert (forall c2, is_white2 c c2 = false) as H2.
  { intros c2. unfold is_white2.
    destruct (Nat.eqb_spec (nat_of_ascii c) 194); [lia|done]. }
  assert (forall c2 c3, is_white3 c c2 c3 = false) as H3.
  { intros c2 c3. unfold is_white3. cbv zeta.
    destruct (Nat.eqb_spec (nat_of_ascii c) 225); [lia|].
    destruct (Nat.eqb_spec (nat_of_ascii c) 226); [lia|].
    destruct (Nat.eqb_spec (nat_of_ascii c) 227); [lia|].
    destruct (Nat.eqb_spec (nat_of_ascii c) 239); [lia|done]. }
  cbn [trim_start]. rewrite Hwhite.
  destruct r as [|c2 [|c3 r3]]; rewrite ?H2, ?H3; done.
Qed.

(** The text of a positive number starts with a digit. *)
Lemma parse_unsigned (p : positive) (suffix : string) :
  leading_digit suffix = false ->
  exists c r,
    String.append (NilEmpty.string_of_uint (Pos.to_uint p)) suffix = String c r /\
    is_white c = false /\ (nat_of_ascii c <? 128)%nat = true /\
    c <> "-"%char /\ c <> "+"%char /\
    read_digits (String c r) None = Some (Z.pos p).
Proof.
  intros Hsuffix.
  pose proof (read_digits_uint (Pos.to_uint p) suffix None Hsuffix) as Hread.
  pose proof (DecimalPos.Unsigned.to_uint_nonnil p) as Hnil.
  rewrite <- (uint_val_to_uint p).
  destruct (Pos.to_uint p) as [|d|d|d|d|d|d|d|d|d|d]; [done|..];
    cbn [NilEmpty.string_of_uint] in *; rewrite append_String in *;
    eexists _, _; (split; [reflexivity|]); split_and!; done.
Qed.

(** Below 2^53 the text of a number is its decimal notation. *)
Lemma Z_toString_small (n : Z) : Z.abs n < 2 ^ 53 -> Z_toString n = decimal n.
Proof.
  intros Hn. unfold Z_toString. rewrite round_double_exact by done.
  by rewrite (proj2 (Z.ltb_lt _ _) Hn).
Qed.

(** [parseInt] reads back the text of an integer below 2^53, and stops at
    the first character after it that is no digit. *)
Lemma parseInt_Z_toString (n : Z) (suffix : string) :
  Z.abs n < 2 ^ 53 ->
  leading_digit suffix = false ->
  parseInt (Str (String.append (Z_toString n) suffix)) = Int n.
Proof.
  intros Hn Hsuffix. rewrite Z_toString_small by done.
  unfold parseInt, decimal. cbn [ToString].
  destruct n as [|p|p]; cbn [Z.to_int NilZero.string_of_int].
  - change (NilZero.string_of_uint Decimal.zero) with "0".
    rewrite append_String, trim_start_ascii by done.
    cbn [read_digits]. change (digit_of "0") with (Some 0). cbv iota.
    by rewrite read_digits_no_digit.
  - assert (NilZero.string_of_uint (Pos.to_uint p)
            = NilEmpty.string_of_uint (Pos.to_uint p)) as ->.
    { pose proof (DecimalPos.Unsigned.to_uint_nonnil p).
      by destruct (Pos.to_uint p). }
    destruct (parse_unsigned p suffix Hsuffix)
      as (c & r & -> & Hwhite & Hascii & Hminus & Hplus & Hread).
    rewrite trim_start_ascii by done.
    assert ((let '(neg, body) :=
               match String c r with
               | String "-" r0 => (true, r0)
               | String "+" r0 => (false, r0)
               | _ => (false, String c r)
               end in
             match read_digits body None with
             | Some n => round_double (if neg then - n else n)
             | None => NaN
             end)
            = match read_digits (String c r) None with
              | Some n => round_double n
              | None => NaN
              end) as ->.
    { destruct c as [[] [] [] [] [] [] [] []]; try reflexivity; congruence. }
    rewrite Hread. by apply round_double_exact.
  - assert (NilZero.string_of_uint (Pos.to_uint p)
            = NilEmpty.string_of_uint (Pos.to_uint p)) as ->.
    { pose proof (DecimalPos.Unsigned.to_uint_nonnil p).
      by destruct (Pos.to_uint p). }
    destruct (parse_unsigned p suffix Hsuffix)
      as (c & r & Heq & _ & _ & _ & _ & Hread).
    rewrite append_String, trim_start_ascii by done.
    rewrite Heq, Hread. by apply round_double_exact.
Qed.

End Decimal.

(** X6. A receipt whose first [amount] tag holds the decimal text of an
    integer [n] below 2^53 in absolute value, possibly followed by text
    that does not start with a digit, adds exactly [n] to the total:
    ["1000"] and ["1000sats"] count as 1000, ["12.5"] as 12, ["-5"] as
    -5. *)
Theorem amount_text_is_read (events : list Event.t) (r : Event.t)
    (amountTag : tag) (n : Z) (suffix : string) :
  Event.kind r = 9735 ->
  List.find (keyed "amount") (Event.tags r) = Some amountTag ->
  Z.abs n < 2 ^ 53 ->
  at_index amountTag 1 = Str (String.append (decimal n) suffix) ->
  leading_digit suffix = false ->
  ZapStats.totalSats (getZapStats (events ++ [r]))
  = num_add (ZapStats.totalSats (getZapStats events)) (Int n).
Proof.
  intros Hkind Hfind Hn Hvalue Hsuffix.
  unfold getZapStats. cbn [ZapStats.totalSats].
  rewrite filter_app, foldl_app, filter_cons, decide_True by done.
  cbn [filter list_filter foldl]. rewrite add_amount_added.
  pose proof (parseInt_Z_toString n suffix Hn Hsuffix) as Hparse.
  rewrite Z_toString_small in Hparse by done.
  unfold amount_added. rewrite Hfind, Hvalue, Hparse.
  destruct (String.append (decimal n) suffix) as [|c text] eqn:Htext.
  - discriminate Hparse.
  - reflexivity.
Qed.

Lemma amount_text_is_read_witness :
  ZapStats.totalSats
    (getZapStats
       ([receipt [[Str "amount"; Str "1000"]] (Str "A")]
          ++ [receipt [[Str "p"; Str "x"]; [Str "amount"; Str "12.5"]] (Str "B")]))
  = num_add
      (ZapStats.totalSats
         (getZapStats [receipt [[Str "amount"; Str "1000"]] (Str "A")]))
      (Int 12).
Proof.
  exact (amount_text_is_read
    [receipt [[Str "amount"; Str "1000"]] (Str "A")]
    (receipt [[Str "p"; Str "x"]; [Str "amount"; Str "12.5"]] (Str "B"))
    [Str "amount"; Str "12.5"] 12 ".5" eq_refl eq_refl eq_refl eq_refl eq_refl).
Defined.

(** ** Bookshelves, encoded and decoded *)

Section ShelfRoundTrip.

(** Decoding the tag that the encoder builds for an entry. *)
Lemma shelf_tag_bookTag (b : Bookshelf.t) (book : ShelfBook.t) :
  shelf_tag b (bookTag book) =
  Bookshelf.set_books
    (Bookshelf.books b ++
       [ShelfBook.mk (ShelfBook.eventId book) (ShelfBook.status book)
          (if truthy (ShelfBook.progress book) then ShelfBook.progress book
           else if truthy (ShelfBook.completedDate book)
                then ShelfBook.completedDate book else Undefined)
          (if truthy (ShelfBook.progress book)
              && truthy (ShelfBook.completedDate book)
           then ShelfBook.completedDate book else Undefined)])
    b.
Proof.
  unfold bookTag.
  by destruct (truthy (ShelfBook.progress book)),
    (truthy (ShelfBook.completedDate book)).
Qed.

Lemma foldl_shelf_tag_bookTags (books : list ShelfBook.t) (b : Bookshelf.t) :
  foldl shelf_tag b (bookTag <$> books) =
  Bookshelf.set_books
    (Bookshelf.books b ++
       ((fun book =>
           ShelfBook.mk (ShelfBook.eventId book) (ShelfBook.status book)
             (if truthy (ShelfBook.progress book) then ShelfBook.progress book
              else if truthy (ShelfBook.completedDate book)
                   then ShelfBook.completedDate book else Undefined)
             (if truthy (ShelfBook.progress book)
                 && truthy (ShelfBook.completedDate book)
              then ShelfBook.completedDate book else Undefined)) <$> books))
    b.
Proof.
  revert b. induction books as [|book books IH]; intros b.
  - rewrite fmap_nil, app_nil_r. by destruct b.
  - rewrite !fmap_cons. cbn [foldl]. rewrite shelf_tag_bookTag, IH.
    unfold Bookshelf.set_books. cbn. by rewrite <- app_assoc.
Qed.

End ShelfRoundTrip.

(** X8. Decoding the event that [createBookshelfEvent] builds returns a
    shelf with the input's id (as [uniqueId]) and name, its description
    when truthy and none otherwise, its notes or the empty string, and one
    entry per input entry, in the same order, with the same eventId and
    status.  A truthy progress and a truthy completedDate come back as they
    are; a completedDate without a truthy progress comes back as the
    progress; falsy values come back absent. *)
Theorem bookshelf_roundtrip `{NostrTools}
    (now : Z) (privateKey : value) (shelfData : ShelfData.t) :
  let shelf := shelf_of_event (createBookshelfEvent now privateKey shelfData) in
  Bookshelf.uniqueId shelf = ShelfData.id shelfData /\
  Bookshelf.name shelf = ShelfData.name shelfData /\
  Bookshelf.description shelf =
    (if truthy (ShelfData.description shelfData)
     then ShelfData.description shelfData else Undefined) /\
  Bookshelf.notes shelf = js_or (ShelfData.notes shelfData) (Str "") /\
  Bookshelf.created_at shelf = seconds now /\
  Bookshelf.pubkey shelf = getPublicKey privateKey /\
  Bookshelf.books shelf =
    (fun book =>
       ShelfBook.mk (ShelfBook.eventId book) (ShelfBook.status book)
         (if truthy (ShelfBook.progress book) then ShelfBook.progress book
          else if truthy (ShelfBook.completedDate book)
               then ShelfBook.completedDate book else Undefined)
         (if truthy (ShelfBook.progress book)
             && truthy (ShelfBook.completedDate book)
          then ShelfBook.completedDate book else Undefined))
      <$> default [] (ShelfData.books shelfData).
Proof.
  cbv zeta. unfold shelf_of_event, createBookshelfEvent, finish.
  cbn [Event.tags Event.content Event.id Event.pubkey Event.created_at
       Event.set_sig Event.set_id].
  destruct (ShelfData.books shelfData) as [[|book books]|];
    destruct (truthy (ShelfData.description shelfData));
    try (cbn; by repeat split).
  - change (0 <? length (book :: books))%nat with true. cbv iota.
    rewrite foldl_app, foldl_shelf_tag_bookTags. cbn. by repeat split.
  - change (0 <? length (book :: books))%nat with true. cbv iota.
    rewrite foldl_app, foldl_shelf_tag_bookTags. cbn. by repeat split.
Qed.

(** ** Book clubs *)

Section Clubs.
Context `{NostrTools}.

Lemma createBookClubEvent_tag_list now privateKey clubData :
  Event.tags (createBookClubEvent now privateKey clubData) =
  [ [Str "d"; ClubData.id clubData];
    [Str "name"; ClubData.name clubData];
    [Str "e"; ClubData.bookEventId clubData] ]
  ++ (if truthy (ClubData.startDate clubData)
      then [[Str "start"; ClubData.startDate clubData]] else [])
  ++ (if truthy (ClubData.endDate clubData)
      then [[Str "end"; ClubData.endDate clubData]] else [])
  ++ (discussionTag <$> default [] (ClubData.discussions clubData)).
Proof.
  unfold createBookClubEvent, finish.
  cbn [Event.tags Event.set_sig Event.set_id].
  destruct (ClubData.discussions clubData) as [[|d ds]|];
    destruct (truthy (ClubData.startDate clubData)),
      (truthy (ClubData.endDate clubData));
    cbn [default from_option id fmap list_fmap app];
    rewrite ?app_nil_r; reflexivity.
Qed.

Lemma filter_discussionTags_other (k : string) (ds : list Discussion.t) :
  String.eqb "discussion" k = false ->
  filter (keyed k) (discussionTag <$> ds) = [].
Proof.
  intros Hk. induction ds as [|d ds IH]; [done|].
  rewrite fmap_cons, filter_cons, decide_False; [done|].
  unfold discussionTag. rewrite keyed_cons, Hk. intros [].
Qed.

Lemma filter_discussionTags (ds : list Discussion.t) :
  filter (keyed "discussion") (discussionTag <$> ds) = discussionTag <$> ds.
Proof.
  induction ds as [|d ds IH]; [done|].
  by rewrite fmap_cons, filter_cons, decide_True, IH.
Qed.

End Clubs.

(** X9. The event of a book club has kind 30055, starts with the tags
    [d], [name] and [e], has a [start] and an [end] tag exactly when the
    dates are truthy, and one [discussion] tag per discussion, in order.
    Every [discussion] tag has four elements: missing pages are written as
    an empty string, not left out. *)
Theorem createBookClubEvent_tags `{NostrTools}
    (now : Z) (privateKey : value) (clubData : ClubData.t) :
  let event := createBookClubEvent now privateKey clubData in
  Event.kind event = 30055 /\
  Event.content event = js_or (ClubData.description clubData) (Str "") /\
  take 3 (Event.tags event) =
    [ [Str "d"; ClubData.id clubData];
      [Str "name"; ClubData.name clubData];
      [Str "e"; ClubData.bookEventId clubData] ] /\
  filter (keyed "start") (Event.tags event) =
    (if truthy (ClubData.startDate clubData)
     then [[Str "start"; ClubData.startDate clubData]] else []) /\
  filter (keyed "end") (Event.tags event) =
    (if truthy (ClubData.endDate clubData)
     then [[Str "end"; ClubData.endDate clubData]] else []) /\
  filter (keyed "discussion") (Event.tags event) =
    ((fun discussion =>
        [ Str "discussion"; Discussion.date discussion;
          Discussion.topic discussion;
          if truthy (Discussion.pages discussion)
          then Discussion.pages discussion else Str "" ])
       <$> default [] (ClubData.discussions clubData)) /\
  Forall (fun t => length t = 4%nat)
    (filter (keyed "discussion") (Event.tags event)).
Proof.
  cbv zeta. rewrite createBookClubEvent_tag_list.
  split; [reflexivity|]. split; [reflexivity|]. split; [reflexivity|].
  rewrite !filter_app, filter_discussionTags,
    !filter_discussionTags_other by done.
  destruct (truthy (ClubData.startDate clubData)),
    (truthy (ClubData.endDate clubData));
    (split_and!; [reflexivity | reflexivity | reflexivity
                 | apply Forall_fmap, Forall_true; done]).
Qed.

(** ** Books, fetched and created *)

Section BookBatches.

(** The decimal notation of an integer starts with a digit or a minus
    sign. *)
Lemma decimal_head (n : Z) :
  exists c r,
    decimal n = String c r /\ (c = "-"%char \/ is_Some (digit_of c)).
Proof.
  unfold decimal. destruct n as [|p|p]; cbn [Z.to_int NilZero.string_of_int].
  - exists "0"%char, EmptyString. split; [done|]. right. by eexists.
  - pose proof (DecimalPos.Unsigned.to_uint_nonnil p) as Hnil.
    destruct (Pos.to_uint p); [done|..];
      eexists _, _; (split; [reflexivity|]); right; by eexists.
  - eexists _, _. split; [reflexivity|]. by left.
Qed.

Lemma number_text_head (s n : Z) :
  exists c r,
    number_text s n = String c r /\ (c = "-"%char \/ is_Some (digit_of c)).
Proof.
  unfold number_text. cbv zeta.
  destruct (decimal_head s) as (c & r & -> & Hc).
  destruct (n <=? 21); rewrite ?append_String; eauto.
Qed.

(** The text of a number starts with a digit, with a minus sign, or with
    the first letter of [Infinity]. *)
Lemma Z_toString_head (n : Z) :
  exists c r,
    Z_toString n = String c r /\
    (c = "-"%char \/ is_Some (digit_of c) \/ c = "I"%char).
Proof.
  unfold Z_toString.
  destruct (round_double n) as [|m|[]] eqn:Hround.
  - by apply round_double_not_NaN in Hround.
  - destruct (Z.abs m <? 2 ^ 53).
    + destruct (decimal_head m) as (c & r & -> & [?|?]);
        exists c, r; (split; [done|]); eauto.
    + destruct (shortest 17 (Z.abs m) _ 1) as [s e].
      destruct (m <? 0).
      * eexists _, _. split; [reflexivity|]. by left.
      * destruct (number_text_head s e) as (c & r & Heq & [?|?]);
          exists c, r; (split; [exact Heq|]); eauto.
  - eexists _, _. split; [reflexivity|]. by left.
  - eexists _, _. split; [reflexivity|]. by right; right.
Qed.

(** The key under which a tag is stored names no modelled field. *)
Lemma other_keyed_recognised_name (key : string) (t : tag) :
  In key ["d"; "title"; "authors"; "isbn"; "published"; "publisher"; "cover";
          "genre"; "summary"] ->
  other_keyed key t = false.
Proof.
  intros Hkey. unfold other_keyed, recognised, keyed.
  destruct (at_index t 0) as [|s|n]; cbn [ToString is_str].
  - cbn [In] in Hkey.
    destruct Hkey as [<-|[<-|[<-|[<-|[<-|[<-|[<-|[<-|[<-|[]]]]]]]]]];
      reflexivity.
  - destruct (String.eqb_spec s key) as [->|Hne]; [|apply andb_false_r].
    cbn [In] in Hkey.
    destruct Hkey as [<-|[<-|[<-|[<-|[<-|[<-|[<-|[<-|[<-|[]]]]]]]]]];
      reflexivity.
  - destruct (Z_toString_head n) as (c & r & -> & Hc).
    cbn [orb negb andb].
    assert (forall c' r', (c' <> "-")%char -> digit_of c' = None ->
              (c' <> "I")%char ->
              String.eqb (String c r) (String c' r') = false) as Hletter.
    { intros c' r' Hminus Hdigit Hinf. cbn [String.eqb].
      destruct (Ascii.eqb_spec c c') as [->|]; [|done].
      destruct Hc as [|[[? Hsome]|]]; [done| |done]. by rewrite Hdigit in Hsome. }
    cbn [In] in Hkey.
    destruct Hkey as [<-|[<-|[<-|[<-|[<-|[<-|[<-|[<-|[<-|[]]]]]]]]]];
      by apply Hletter.
Qed.

Lemma other_keyed_prototype_name (key : string) (t : tag) :
  storable t = true -> key ∈ Object_prototype -> other_keyed key t = false.
Proof.
  unfold storable, other_keyed. intros Hst Hkey.
  destruct (recognised t); [done|]. cbn [negb andb orb] in *.
  apply negb_true_iff, bool_decide_eq_false in Hst.
  apply String.eqb_neq. intros Heq. apply Hst. by rewrite Heq.
Qed.

Lemma filter_none {A} (f : A -> bool) (l : list A) :
  (forall x, x ∈ l -> f x = false) -> filter f l = [].
Proof.
  induction l as [|x l IH]; intros Hall; [done|].
  rewrite filter_cons, decide_False.
  - apply IH. intros y Hy. apply Hall. by right.
  - rewrite (Hall x) by left. intros [].
Qed.

End BookBatches.

(** X10. [fetchBooks] is all or nothing: when every event of the batch is
    decodable it returns one book per event, in order; as soon as one event
    carries an unrecognised tag keyed by a member of [Object.prototype]
    the whole call throws a [TypeError] and no book is returned. *)
Theorem fetchBooks_all_or_nothing (events : list Event.t) :
  (forallb decodable events = true ->
   exists books,
     fetchBooks events = Ok books /\
     length books = length events /\
     forall i event,
       events !! i = Some event ->
       exists book, books !! i = Some book /\ book_of_event event = Ok book) /\
  (forallb decodable events = false ->
   fetchBooks events = Throw "TypeError").
Proof.
  split.
  - intros Hall. destruct (fetchBooks_returns events Hall) as (books & Hbooks & Hforall).
    exists books. split; [done|]. split.
    + symmetry. by eapply Forall2_length.
    + intros i event Hi.
      destruct (Forall2_lookup_l _ _ _ _ _ Hforall Hi) as (book & ? & ?).
      by exists book.
  - apply fetchBooks_throws.
Qed.

Lemma fetchBooks_all_or_nothing_witness :
  fetchBooks
    [ Event.mk 30051 0 [[Str "title"; Str "Dune"]] (Str "") (Str "pk") (Str "a") (Str "s");
      Event.mk 30051 0 [[Str "toString"; Str "x"]] (Str "") (Str "pk") (Str "b") (Str "s");
      Event.mk 30051 0 [[Str "title"; Str "Emma"]] (Str "") (Str "pk") (Str "c") (Str "s") ]
  = Throw "TypeError".
Proof.
  apply (proj2 (fetchBooks_all_or_nothing
    [ Event.mk 30051 0 [[Str "title"; Str "Dune"]] (Str "") (Str "pk") (Str "a") (Str "s");
      Event.mk 30051 0 [[Str "toString"; Str "x"]] (Str "") (Str "pk") (Str "b") (Str "s");
      Event.mk 30051 0 [[Str "title"; Str "Emma"]] (Str "") (Str "pk") (Str "c") (Str "s") ])).
  reflexivity.
Defined.

(** X11. The keys of the catch-all mapping of a decoded book are exactly
    the keys (as property names) of the tags that have no branch of their
    own; the mapping never holds an entry under the name of a modelled tag
    key ([d], [title], ...) nor under the name of a member of
    [Object.prototype]. *)
Theorem book_tags_keys (event : Event.t) :
  decodable event = true ->
  exists book,
    book_of_event event = Ok book /\
    (forall key,
       is_Some (Book.tags book !! key) <->
       exists t, t ∈ Event.tags event /\ recognised t = false /\
                 ToString (at_index t 0) = key) /\
    (forall key,
       In key ["d"; "title"; "authors"; "isbn"; "published"; "publisher";
               "cover"; "genre"; "summary"] \/ key ∈ Object_prototype ->
       Book.tags book !! key = None).
Proof.
  intros Hd. destruct (book_of_event_returns event Hd) as [book Hbook].
  exists book. split; [done|].
  assert (forall key,
    Book.tags book !! key =
      match slice1 <$> filter (other_keyed key) (Event.tags event) with
      | [] => None
      | args => Some args
      end) as Hkeys.
  { intros key. rewrite (forEach_tags _ _ _ key Hbook); simpl.
    rewrite lookup_empty. by case_match. }
  split.
  - intros key. rewrite Hkeys. split.
    + intros Hsome.
      destruct (filter (other_keyed key) (Event.tags event)) as [|t ts] eqn:Hf.
      { by destruct Hsome. }
      assert (t ∈ filter (other_keyed key) (Event.tags event)) as Hin
        by (rewrite Hf; left).
      apply list_elem_of_filter in Hin as [Hok Hin].
      unfold other_keyed in Hok.
      apply Is_true_true, andb_true_iff in Hok as [Hrec Heq].
      exists t. split; [done|]. split.
      * by apply negb_true_iff.
      * by apply String.eqb_eq.
    + intros (t & Hin & Hrec & Hkey).
      assert (t ∈ filter (other_keyed key) (Event.tags event)) as Hf.
      { apply list_elem_of_filter. split; [|done].
        subst key. by rewrite other_keyed_own_key. }
      destruct (filter (other_keyed key) (Event.tags event));
        [by apply elem_of_nil in Hf|].
      by eexists.
  - intros key Hkey. rewrite Hkeys.
    assert (filter (other_keyed key) (Event.tags event) = []) as ->; [|done].
    apply filter_none. intros t Hin. destruct Hkey as [Hkey|Hkey].
    + by apply other_keyed_recognised_name.
    + apply other_keyed_prototype_name; [|done].
      unfold decodable in Hd. rewrite forallb_forall in Hd.
      by apply Hd, list_elem_of_In.
Qed.

Lemma book_tags_keys_witness :
  exists book,
    book_of_event
      (Event.mk 30051 0
         [[Str "title"; Str "Dune"]; [Str "lang"; Str "en"]; []; [Num 7; Str "x"]]
         (Str "") (Str "pk") (Str "id") (Str "sig")) = Ok book /\
    Book.tags book !! "title" = None /\
    Book.tags book !! "constructor" = None.
Proof.
  destruct (book_tags_keys
    (Event.mk 30051 0
       [[Str "title"; Str "Dune"]; [Str "lang"; Str "en"]; []; [Num 7; Str "x"]]
       (Str "") (Str "pk") (Str "id") (Str "sig")) eq_refl)
    as (book & Hbook & _ & Hnone).
  exists book. split; [exact Hbook|]. split.
  - apply Hnone. left. cbn [In]. tauto.
  - apply Hnone. right. unfold Object_prototype. apply list_elem_of_In. cbn [In]. tauto.
Defined.

(** X12. The decoder takes the envelope of a book from the event itself:
    [id], [pubkey], [created_at] come from the event and [description] is
    its content, whatever the tags say (a [description] tag lands in the
    catch-all mapping); [authors] holds the arguments of the last
    [authors] tag and is absent when there is none. *)
Theorem book_envelope_and_authors (event : Event.t) :
  decodable event = true ->
  exists book,
    book_of_event event = Ok book /\
    Book.id book = Event.id event /\
    Book.pubkey book = Event.pubkey event /\
    Book.created_at book = Event.created_at event /\
    Book.description book = Event.content event /\
    Book.authors book
      = slice1 <$> last (filter (keyed "authors") (Event.tags event)) /\
    Book.tags book !! "description"
      = match slice1 <$> filter (keyed "description") (Event.tags event) with
        | [] => None
        | args => Some args
        end.
Proof.
  intros Hd. destruct (book_of_event_returns event Hd) as [book Hbook].
  exists book. split; [done|].
  destruct (book_of_event_envelope event book Hbook) as (-> & -> & -> & ->).
  rewrite (book_of_event_authors event book Hbook).
  split_and!; try done.
  rewrite (forEach_tags _ _ _ "description" Hbook); simpl. rewrite lookup_empty.
  assert (filter (other_keyed "description") (Event.tags event)
          = filter (keyed "description") (Event.tags event)) as ->.
  { apply list_filter_iff. intros t.
    assert (other_keyed "description" t = keyed "description" t) as ->; [|done].
    unfold other_keyed, recognised, keyed.
    destruct (at_index t 0) as [|s|n]; cbn [ToString is_str]; [done| |].
    - destruct (String.eqb_spec s "description") as [->|]; [done|].
      apply andb_false_r.
    - destruct (Z_toString_head n) as (c & r & -> & Hc). cbn [orb negb andb String.eqb].
      destruct (Ascii.eqb_spec c "d") as [->|]; [|done].
      by destruct Hc as [|[[? ?]|]]. }
  by case_match.
Qed.

Lemma book_envelope_and_authors_witness :
  exists book,
    book_of_event
      (Event.mk 30051 1700000000
         [[Str "authors"; Str "A"]; [Str "description"; Str "from a tag"];
          [Str "authors"; Str "B"; Str "C"]]
         (Str "from the content") (Str "pk") (Str "id") (Str "sig")) = Ok book /\
    Book.description book = Str "from the content" /\
    Book.authors book = Some [Str "B"; Str "C"] /\
    Book.tags book !! "description" = Some [[Str "from a tag"]].
Proof.
  destruct (book_envelope_and_authors
    (Event.mk 30051 1700000000
       [[Str "authors"; Str "A"]; [Str "description"; Str "from a tag"];
        [Str "authors"; Str "B"; Str "C"]]
       (Str "from the content") (Str "pk") (Str "id") (Str "sig")) eq_refl)
    as (book & Hbook & _ & _ & _ & Hdescr & Hauthors & Htag).
  exists book. split_and!; assumption.
Defined.

(** X13. [createBookEvent] fails exactly when the input has no authors
    array, with a [TypeError].  Otherwise it returns an event of kind
    30051, stamped with the clock in whole seconds, that starts with the
    [d] tag, holds seven tags plus one per genre plus one for a truthy
    summary, and that the book decoder accepts whatever the field values
    are. *)
Theorem createBookEvent_outcomes `{NostrTools}
    (now : Z) (privateKey : value) (bookData : BookData.t) :
  (BookData.authors bookData = None ->
   createBookEvent now privateKey bookData = Throw "TypeError") /\
  (forall authors,
     BookData.authors bookData = Some authors ->
     exists event,
       createBookEvent now privateKey bookData = Ok event /\
       Event.kind event = 30051 /\
       Event.created_at event = now / 1000 /\
       Event.pubkey event = getPublicKey privateKey /\
       Event.tags event !! 0%nat = Some [Str "d"; BookData.id bookData] /\
       length (Event.tags event)
         = (7 + length (default [] (BookData.genres bookData))
            + (if truthy (BookData.summary bookData) then 1 else 0))%nat /\
       decodable event = true).
Proof.
  split.
  - intros Hauthors. unfold createBookEvent. by rewrite Hauthors.
  - intros authors Hauthors.
    destruct (createBookEvent_tags now privateKey bookData authors Hauthors)
      as (event & Hevent & _ & Htags).
    exists event. split; [done|].
    assert (Event.kind event = 30051 /\ Event.created_at event = now / 1000 /\
            Event.pubkey event = getPublicKey privateKey) as (-> & -> & ->).
    { unfold createBookEvent in Hevent. rewrite Hauthors in Hevent.
      cbn [mbind result_bind spread] in Hevent. by injection Hevent as <-. }
    unfold decodable. rewrite Htags. split_and!; try done.
    + rewrite !length_app, length_fmap. cbn [length].
      destruct (truthy (BookData.summary bookData)); cbn [length]; lia.
    + rewrite !forallb_app. apply andb_true_iff. split; [done|].
      apply andb_true_iff. split.
      * apply forallb_forall. intros t Hin.
        apply list_elem_of_In, list_elem_of_fmap in Hin as (g & -> & _). done.
      * by destruct (truthy (BookData.summary bookData)).
Qed.

Lemma createBookEvent_outcomes_witness :
  exists event,
    @createBookEvent fixed_tools 1700000000123 (Str "sk")
      (BookData.mk (Str "b2") (Str "constructor") (Some [Str "toString"])
         Undefined Undefined Undefined Undefined (Some [Str "__proto__"])
         (Str "valueOf") Undefined) = Ok event /\
    Event.kind event = 30051 /\
    Event.created_at event = 1700000000 /\
    length (Event.tags event) = 9%nat /\
    decodable event = true.
Proof.
  destruct (proj2 (@createBookEvent_outcomes fixed_tools 1700000000123 (Str "sk")
    (BookData.mk (Str "b2") (Str "constructor") (Some [Str "toString"])
       Undefined Undefined Undefined Undefined (Some [Str "__proto__"])
       (Str "valueOf") Undefined)) [Str "toString"] eq_refl)
    as (event & Hevent & Hkind & Htime & _ & _ & Hlength & Hd).
  exists event. split_and!; assumption.
Defined.

(** ** The Goodreads import *)

Section Goodreads.























Context `{NostrTools}.

Lemma import_row_outcome (now now' : Z) (privateKey : value)
    (row : gmap string string) :
  import_row now now' privateKey row
  = if importable row then Ok () else Throw "TypeError".
Proof.
  unfold import_row, importable, goodreads_bookData.
  pose proof (eq_refl : row_get row "Bookshelves"
                        = from_option Str Undefined (row !! "Bookshelves")) as Hshelves.
  pose proof (eq_refl : row_get row "My Rating"
                        = from_option Str Undefined (row !! "My Rating")) as Hrating.
  destruct (row !! "Bookshelves") as [shelves|]; cbn [from_option] in Hshelves;
    rewrite Hshelves; [|by rewrite bool_decide_false by (by intros [? ?])].
  rewrite bool_decide_true by eauto.
  cbn [split mbind result_bind andb].
  match goal with
  | |- context [createBookEvent now privateKey ?bd] =>
      destruct (createBookEvent_tags now privateKey bd _ eq_refl)
        as (event & -> & _)
  end.
  cbn [mbind result_bind].
  destruct (truthy (row_get row "My Review")); [|done].
  cbn [negb orb]. unfold createBookReviewEvent, goodreads_reviewData.
  cbn [ReviewData.rating].
  destruct (row !! "My Rating") as [rating|]; cbn [from_option] in Hrating;
    rewrite Hrating.
  - by rewrite bool_decide_true by eauto.
  - by rewrite bool_decide_false by (by intros [? ?]).
Qed.

End Goodreads.

(** X14. [importFromGoodreadsCSV] gets through exactly when every row has
    a [Bookshelves] column and every row with a review also has a
    [My Rating] column; otherwise it stops at the first row that does not,
    with a [TypeError], whatever the rows after it hold. *)
Theorem importFromGoodreadsCSV_outcome `{NostrTools}
    (clock : nat -> Z) (data : list (gmap string string)) (privateKey : value) :
  importFromGoodreadsCSV clock data privateKey
  = if forallb importable data then Ok () else Throw "TypeError".
Proof.
  unfold importFromGoodreadsCSV. generalize 0%nat.
  induction data as [|row rows IH]; intros k0; [done|].
  cbn [import_rows forallb]. rewrite import_row_outcome.
  destruct (importable row); [|done].
  cbn [mbind result_bind andb]. apply IH.
Qed.



Example goodreads_genres_example :
  List.filter nonempty (trim <$> split_comma "sci-fi, classics ,, to-read")
  = ["sci-fi"; "classics"; "to-read"].
Proof. reflexivity. Qed.

(** ** Duplicate tags *)

(** X16. Among several tags with the key of one single-value field, the
    decoders keep the value of the last one in tag order (and leave the
    field absent when there is none): the book decoder, on every event
    that it returns a book for ([decodable]), for each of [d], [title],
    [isbn], [published], [publisher], [cover] and [summary]; the bookshelf
    decoder, on every event, for each of [d], [name] and [description].
    The reducer of [getZapStats] reads the first tag keyed [amount] of a
    receipt and no other. *)
Theorem last_tag_wins_first_amount_wins (event shelf zap : Event.t) :
  decodable event = true ->
  (exists book,
     book_of_event event = Ok book /\
     forall f,
       field_get f book =
         match last (filter (keyed (field_key f)) (Event.tags event)) with
         | Some t => at_index t 1
         | None => Undefined
         end) /\
  (Bookshelf.uniqueId (shelf_of_event shelf) =
     match last (filter (keyed "d") (Event.tags shelf)) with
     | Some t => at_index t 1
     | None => Undefined
     end /\
   Bookshelf.name (shelf_of_event shelf) =
     match last (filter (keyed "name") (Event.tags shelf)) with
     | Some t => at_index t 1
     | None => Undefined
     end /\
   Bookshelf.description (shelf_of_event shelf) =
     match last (filter (keyed "description") (Event.tags shelf)) with
     | Some t => at_index t 1
     | None => Undefined
     end) /\
  (forall sum,
     add_amount sum zap =
       match head (filter (keyed "amount") (Event.tags zap)) with
       | Some amountTag =>
           if truthy (at_index amountTag 1)
           then num_add sum (parseInt (at_index amountTag 1))
           else sum
       | None => sum
       end).
Proof.
  intros Hd. split; [|split].
  - destruct (book_of_event_returns event Hd) as [book Hbook].
    exists book. split; [done|]. intros f.
    rewrite (forEach_single f _ _ _ Hbook). by destruct f.
  - apply shelf_fold_fields.
  - intros sum. unfold add_amount. by rewrite find_keyed_head.
Qed.

Lemma last_tag_wins_first_amount_wins_witness :
  (exists book,
     book_of_event
       (Event.mk 30051 0
          [[Str "title"; Str "Dune"]; [Str "isbn"; Str "1"]; [Str "title"; Str "Emma"]]
          (Str "") (Str "pk") (Str "id") (Str "sig")) = Ok book /\
     Book.title book = Str "Emma") /\
  Bookshelf.name
    (shelf_of_event
       (Event.mk 30052 0
          [[Str "name"; Str "To read"]; [Str "name"; Str "Read"]]
          (Str "") (Str "pk") (Str "id") (Str "sig"))) = Str "Read" /\
  add_amount (Int 0)
    (receipt [[Str "amount"; Str "1000"]; [Str "amount"; Str "500"]] (Str "A"))
  = Int 1000.
Proof.
  destruct (last_tag_wins_first_amount_wins
    (Event.mk 30051 0
       [[Str "title"; Str "Dune"]; [Str "isbn"; Str "1"]; [Str "title"; Str "Emma"]]
       (Str "") (Str "pk") (Str "id") (Str "sig"))
    (Event.mk 30052 0
       [[Str "name"; Str "To read"]; [Str "name"; Str "Read"]]
       (Str "") (Str "pk") (Str "id") (Str "sig"))
    (receipt [[Str "amount"; Str "1000"]; [Str "amount"; Str "500"]] (Str "A"))
    eq_refl) as ((book & Hbook & Hfields) & (_ & Hname & _) & Hamount).
  split_and!.
  - exists book. split; [exact Hbook | exact (Hfields F_title)].
  - exact Hname.
  - exact (Hamount (Int 0)).
Defined.

(** X17. On every Book event that the decoder returns a book for
    ([decodable]), [genres] holds the values of all the [genre] tags, in
    tag order, and stays absent when there is none; two tags
    [[genre, "scifi"]] and [[genre, "classic"]] give
    [["scifi", "classic"]]. *)
Theorem genres_accumulate_in_tag_order (event : Event.t) :
  decodable event = true ->
  exists book,
    book_of_event event = Ok book /\
    Book.genres book =
      match filter (keyed "genre") (Event.tags event) with
      | [] => None
      | gs => Some ((fun t => at_index t 1) <$> gs)
      end.
Proof.
  intros Hd. destruct (book_of_event_returns event Hd) as [book Hbook].
  exists book. split; [done|].
  by rewrite (forEach_genres _ _ _ Hbook).
Qed.

Lemma genres_accumulate_in_tag_order_witness :
  exists book,
    book_of_event
      (Event.mk 30051 0
         [[Str "d"; Str "b1"]; [Str "genre"; Str "scifi"]; [Str "title"; Str "Dune"];
          [Str "genre"; Str "classic"]]
         (Str "") (Str "pk") (Str "id") (Str "sig")) = Ok book /\
    Book.genres book = Some [Str "scifi"; Str "classic"].
Proof.
  exact (genres_accumulate_in_tag_order
    (Event.mk 30051 0
       [[Str "d"; Str "b1"]; [Str "genre"; Str "scifi"]; [Str "title"; Str "Dune"];
        [Str "genre"; Str "classic"]]
       (Str "") (Str "pk") (Str "id") (Str "sig")) eq_refl).
Defined.

